(** * Recommendation service (function_app.py): model and verification

    A shallow embedding of the Azure Function that serves item
    recommendations from a trained matrix-factorisation model:
    [extract_request_params], [generate_recommendations],
    [create_error_response], [recommendation_function] and [health_check].

    Python values that travel through the handler are dynamically typed, so
    they are embedded as one inductive type [PyVal]; exceptions are explicit
    results; the model object, which every request shares, is threaded as
    state. *)

From Stdlib Require Import List ZArith QArith Qround String Ascii Bool Lia.
From Stdlib Require Import Permutation Sorted PeanoNat DecimalString DecimalZ.
Import ListNotations.

Local Open Scope string_scope.
Local Open Scope Z_scope.

(** ** Python values *)

(** The values a query string or a decoded JSON body can hold.  A JSON number
    with a fraction or exponent is a float: a finite one, kept as the rational
    it denotes, or what the JSON decoder makes of [1e999], [Infinity],
    [-Infinity] and [NaN]. *)
#[warnings="-register-all"]
Inductive PyVal : Type :=
| PNone
| PBool (b : bool)
| PInt (z : Z)
| PFloat (q : Q)
| PInf (negative : bool)
| PNan
| PStr (s : string)
| PList (l : list PyVal)
| PDict (d : list (string * PyVal)).

(** Raw identifiers stored in the model: hashable keys, integers or strings. *)
Inductive RawId : Type :=
| RInt (z : Z)
| RStr (s : string).

Inductive ExnClass : Type :=
| ValueError | TypeError | AttributeError | OverflowError.

Record Exn : Type := mkExn { exn_class : ExnClass; exn_msg : string }.

(** Outcome of an expression that may raise. *)
Inductive Res (A : Type) : Type :=
| Ok (a : A)
| Raise (e : Exn).
Arguments Ok {A} a.
Arguments Raise {A} e.

Definition RawId_eq_dec (a b : RawId) : {a = b} + {a <> b}.
Proof. decide equality; [apply Z.eq_dec | apply string_dec]. Defined.

Definition RawId_eqb (a b : RawId) : bool :=
  if RawId_eq_dec a b then true else false.

(** [bool(v)]: the truth value Python gives [v] in [if v] and [not v]. *)
Definition py_truthy (v : PyVal) : bool :=
  match v with
  | PNone => false
  | PBool b => b
  | PInt z => negb (z =? 0)
  | PFloat q => negb (Qeq_bool q 0)
  | PInf _ | PNan => true
  | PStr s => negb (String.eqb s "")
  | PList l => match l with [] => false | _ => true end
  | PDict d => match d with [] => false | _ => true end
  end.

(** [type(v).__name__], as error messages quote it. *)
Definition type_name (v : PyVal) : string :=
  match v with
  | PNone => "NoneType"
  | PBool _ => "bool"
  | PInt _ => "int"
  | PFloat _ | PInf _ | PNan => "float"
  | PStr _ => "str"
  | PList _ => "list"
  | PDict _ => "dict"
  end.

(** *** [str.lower] on the ASCII range *)

Definition lower_ascii (c : ascii) : ascii :=
  let n := nat_of_ascii c in
  if (Nat.leb 65 n && Nat.leb n 90)%bool then ascii_of_nat (n + 32) else c.

Fixpoint lower (s : string) : string :=
  match s with
  | EmptyString => EmptyString
  | String c r => String (lower_ascii c) (lower r)
  end.

(** *** [int(s)] on a string: surrounding white space, a sign, decimal
    digits, single underscores between digits, and no more than 4300 digits

    The reading below is that of a text of ASCII characters.  The interpreter
    also reads the decimal digits and the white space of other scripts; a
    text with such a character is not read here, and the properties that rest
    on a text being rejected are stated for ASCII texts, [ascii_text]. *)

Fixpoint ascii_text (s : string) : bool :=
  match s with
  | EmptyString => true
  | String c r => (Nat.ltb (nat_of_ascii c) 128 && ascii_text r)%bool
  end.

Definition is_space (c : ascii) : bool :=
  let n := nat_of_ascii c in
  (Nat.eqb n 32 || (Nat.leb 9 n && Nat.leb n 13))%bool.

Definition digit_of (c : ascii) : option Z :=
  let n := nat_of_ascii c in
  if (Nat.leb 48 n && Nat.leb n 57)%bool then Some (Z.of_nat (n - 48)) else None.

Fixpoint lstrip (s : string) : string :=
  match s with
  | String c r => if is_space c then lstrip r else s
  | EmptyString => EmptyString
  end.

Fixpoint all_space (s : string) : bool :=
  match s with
  | EmptyString => true
  | String c r => (is_space c && all_space r)%bool
  end.

(** [digits acc prev s]: reads the digit run of [s]; [prev] tells whether the
    previous character was a digit (an underscore needs one on both sides). *)
Fixpoint digits (acc : Z) (prev : bool) (s : string) : option Z :=
  match s with
  | EmptyString => if prev then Some acc else None
  | String c r =>
      match digit_of c with
      | Some d => digits (10 * acc + d) true r
      | None =>
          if (Ascii.eqb c "_" && prev)%bool then
            match r with
            | String c' _ =>
                match digit_of c' with
                | Some _ => digits acc false r
                | None => None
                end
            | EmptyString => None
            end
          else if (is_space c && prev && all_space r)%bool then Some acc
          else None
      end
  end.

Definition read_literal (s : string) : option Z :=
  match lstrip s with
  | String "-" r => option_map Z.opp (digits 0 false r)
  | String "+" r => digits 0 false r
  | r => digits 0 false r
  end.

Fixpoint digit_count (s : string) : Z :=
  match s with
  | EmptyString => 0
  | String c r =>
      match digit_of c with
      | Some _ => 1 + digit_count r
      | None => digit_count r
      end
  end.

(** [sys.get_int_max_str_digits()], at its default. *)
Definition max_str_digits : Z := 4300.

(** A literal with more digits than the limit is refused, as a text that is
    no literal is. *)
Definition int_of_string (s : string) : option Z :=
  if max_str_digits <? digit_count s then None else read_literal s.

Definition str_of_Z (z : Z) : string := NilEmpty.string_of_int (Z.to_int z).

(** The message of the [ValueError] of [int(s)], for a literal that is too
    long and for a short text that is no literal; the text is quoted the way
    [repr] quotes one that holds no quote, backslash or control character.
    No property below depends on the wording. *)
Definition int_error_text (s : string) : string :=
  if max_str_digits <? digit_count s then
    "Exceeds the limit (4300 digits) for integer string conversion: value has "
    ++ str_of_Z (digit_count s)
    ++ " digits; use sys.set_int_max_str_digits() to increase the limit"
  else "invalid literal for int() with base 10: '" ++ s ++ "'".

(** [int(x)] of a float truncates towards zero. *)
Definition Qtrunc (q : Q) : Z := Z.quot (Qnum q) (Z.pos (Qden q)).

(** [int(v)], as the handler applies it to a query value or a JSON value. *)
Definition py_int (v : PyVal) : Res Z :=
  match v with
  | PInt z => Ok z
  | PBool b => Ok (Z.b2z b)
  | PFloat q => Ok (Qtrunc q)
  | PInf _ => Raise (mkExn OverflowError "cannot convert float infinity to integer")
  | PNan => Raise (mkExn ValueError "cannot convert float NaN to integer")
  | PStr s =>
      match int_of_string s with
      | Some z => Ok z
      | None => Raise (mkExn ValueError (int_error_text s))
      end
  | PNone | PList _ | PDict _ =>
      Raise (mkExn TypeError
               ("int() argument must be a string, a bytes-like object or a real number, not '"
                ++ type_name v ++ "'"))
  end.

(** *** Ordering of numbers: [min] and [max] against an integer literal *)

Definition num_val (v : PyVal) : option Q :=
  match v with
  | PBool b => Some (inject_Z (Z.b2z b))
  | PInt z => Some (inject_Z z)
  | PFloat q => Some q
  | _ => None
  end.

Definition Qltb (a b : Q) : bool := negb (Qle_bool b a).

(** A number as a comparison sees it: finite, an infinity, or NaN, which is
    neither below nor above anything. *)
Inductive Num : Type :=
| Finite (q : Q)
| Infinite (negative : bool)
| NotANumber.

Definition number (v : PyVal) : option Num :=
  match v with
  | PInf negative => Some (Infinite negative)
  | PNan => Some NotANumber
  | _ => option_map Finite (num_val v)
  end.

Definition Num_ltb (a b : Num) : bool :=
  match a, b with
  | Finite x, Finite y => Qltb x y
  | Finite _, Infinite negative => negb negative
  | Infinite negative, Finite _ => negative
  | Infinite n1, Infinite n2 => (n1 && negb n2)%bool
  | _, _ => false
  end.

Definition not_supported (op : string) (a b : PyVal) : Exn :=
  mkExn TypeError
    ("'" ++ op ++ "' not supported between instances of '" ++ type_name a
     ++ "' and '" ++ type_name b ++ "'").

(** [a < b] and [a > b] between numbers; any other kind of operand has no
    ordering with a number. *)
Definition py_lt (a b : PyVal) : Res bool :=
  match number a, number b with
  | Some x, Some y => Ok (Num_ltb x y)
  | _, _ => Raise (not_supported "<" a b)
  end.

Definition py_gt (a b : PyVal) : Res bool :=
  match number a, number b with
  | Some x, Some y => Ok (Num_ltb y x)
  | _, _ => Raise (not_supported ">" a b)
  end.

(** [min(a, b)] keeps [a] unless [b < a]; [max(a, b)] keeps [a] unless
    [b > a]. *)
Definition py_min (a b : PyVal) : Res PyVal :=
  match py_lt b a with
  | Ok lt => Ok (if lt then b else a)
  | Raise e => Raise e
  end.

Definition py_max (a b : PyVal) : Res PyVal :=
  match py_gt b a with
  | Ok gt => Ok (if gt then b else a)
  | Raise e => Raise e
  end.

(** *** [str(x)] of a raw identifier *)

Definition py_str (r : RawId) : string :=
  match r with
  | RInt z => str_of_Z z
  | RStr s => s
  end.

(** *** Slicing [l[:n]] *)

Definition slice_to {A : Type} (n : Z) (l : list A) : list A :=
  if n <? 0 then firstn (Z.to_nat (Z.of_nat (List.length l) + n)) l
  else firstn (Z.to_nat n) l.

(** The bound of a slice must be [None] or an integer. *)
Definition py_slice_to {A : Type} (n : PyVal) (l : list A) : Res (list A) :=
  match n with
  | PNone => Ok l
  | PInt z => Ok (slice_to z l)
  | PBool b => Ok (slice_to (Z.b2z b) l)
  | _ => Raise (mkExn TypeError
                  "slice indices must be integers or None or have an __index__ method")
  end.

(** ** The trained model *)

(** Modelled from the spec: the trained model is an object of the recommender
    library, which the repository only calls.  Its trainset enumerates the
    inner item ids [range(n_items)], translates a raw user id to an inner id
    ([to_inner_uid], raising [ValueError] for an id not seen in training) and
    an inner item id to its raw id ([to_raw_iid]), and holds the ratings of
    each user ([ur]) and of each item ([ir]).  The library keeps [ur] and
    [ir] in dictionaries with the default value [[]]: reading a key that is
    missing stores an empty list under it.  [est m u i] is the estimate of
    [m.predict(u, i)], a finite float, kept as the rational it denotes. *)
Definition Ratings : Type := list (nat * Q).
Definition DefaultDict : Type := list (nat * Ratings).

Record Trainset : Type := mkTrainset {
  n_items : nat;
  to_inner_uid : PyVal -> Res nat;
  to_raw_iid : nat -> Res RawId;
  ur : DefaultDict;
  ir : DefaultDict
}.

Record Model : Type := mkModel {
  trainset : Trainset;
  est : PyVal -> RawId -> Q
}.

Fixpoint dd_lookup (k : nat) (d : DefaultDict) : option Ratings :=
  match d with
  | [] => None
  | (k', v) :: r => if Nat.eqb k k' then Some v else dd_lookup k r
  end.

Definition set_ur (m : Model) (d : DefaultDict) : Model :=
  let t := trainset m in
  mkModel (mkTrainset (n_items t) (to_inner_uid t) (to_raw_iid t) d (ir t)) (est m).

Definition set_ir (m : Model) (d : DefaultDict) : Model :=
  let t := trainset m in
  mkModel (mkTrainset (n_items t) (to_inner_uid t) (to_raw_iid t) (ur t) d) (est m).

(** ** Computations on the shared model: state and exceptions *)

(** A computation reads and may update the model object it was handed, and
    returns a value or raises; what it did to the model before raising
    stays. *)
Definition M (A : Type) : Type := Model -> Res A * Model.

Definition ret {A : Type} (a : A) : M A := fun m => (Ok a, m).

Definition bind {A B : Type} (c : M A) (k : A -> M B) : M B :=
  fun m =>
    match c m with
    | (Ok a, m') => k a m'
    | (Raise e, m') => (Raise e, m')
    end.

Definition lift {A : Type} (r : Res A) : M A := fun m => (r, m).

Notation "x <- c ;; k" := (bind c (fun x => k))
  (at level 61, c at next level, right associativity).
Notation "' pat <- c ;; k" := (bind c (fun x => match x with pat => k end))
  (at level 61, pat pattern, c at next level, right associativity).

Definition ExnClass_eqb (a b : ExnClass) : bool :=
  match a, b with
  | ValueError, ValueError | TypeError, TypeError
  | AttributeError, AttributeError | OverflowError, OverflowError => true
  | _, _ => false
  end.

(** [try: body except cls: handler] *)
Definition try_except {A : Type} (cls : ExnClass) (body handler : M A) : M A :=
  fun m =>
    match body m with
    | (Raise e, m') =>
        if ExnClass_eqb (exn_class e) cls then handler m' else (Raise e, m')
    | r => r
    end.

(** [[f(x) for x in l]] *)
Fixpoint mapM {A B : Type} (f : A -> M B) (l : list A) : M (list B) :=
  match l with
  | [] => ret []
  | x :: r => y <- f x ;; ys <- mapM f r ;; ret (y :: ys)
  end.

(** [[e(x) for x in l if c(x)]] *)
Fixpoint comprehension_if {A B : Type} (c : A -> M bool) (e : A -> M B)
    (l : list A) : M (list B) :=
  match l with
  | [] => ret []
  | x :: r =>
      b <- c x ;;
      if (b : bool) then y <- e x ;; ys <- comprehension_if c e r ;; ret (y :: ys)
      else comprehension_if c e r
  end.

(** A dictionary keeps its keys in insertion order; storing under a key that
    is already there replaces the value where the key stands. *)
Fixpoint dict_set {V : Type} (k : RawId) (v : V) (d : list (RawId * V))
    : list (RawId * V) :=
  match d with
  | [] => [(k, v)]
  | (k', v') :: r =>
      if RawId_eqb k k' then (k', v) :: r else (k', v') :: dict_set k v r
  end.

(** [{key(x): value(x) for x in l}], filling [acc] *)
Fixpoint dict_comprehension {A V : Type} (kv : A -> M (RawId * V)) (l : list A)
    (acc : list (RawId * V)) : M (list (RawId * V)) :=
  match l with
  | [] => ret acc
  | x :: r => p <- kv x ;; dict_comprehension kv r (dict_set (fst p) (snd p) acc)
  end.

(** *** The methods and attributes of the model that the handler uses *)

Definition trainset_all_items : M (list nat) :=
  fun m => (Ok (seq 0 (n_items (trainset m))), m).

Definition trainset_to_inner_uid (ruid : PyVal) : M nat :=
  fun m => (to_inner_uid (trainset m) ruid, m).

Definition trainset_to_raw_iid (iiid : nat) : M RawId :=
  fun m => (to_raw_iid (trainset m) iiid, m).

Definition model_predict (uid : PyVal) (iid : RawId) : M Q :=
  fun m => (Ok (est m uid iid), m).

(** [trainset.ur[u]] *)
Definition trainset_ur (u : nat) : M Ratings :=
  fun m =>
    match dd_lookup u (ur (trainset m)) with
    | Some l => (Ok l, m)
    | None => (Ok [], set_ur m (ur (trainset m) ++ [(u, [])])%list)
    end.

(** [trainset.ir[i]] *)
Definition trainset_ir (i : nat) : M Ratings :=
  fun m =>
    match dd_lookup i (ir (trainset m)) with
    | Some l => (Ok l, m)
    | None => (Ok [], set_ir m (ir (trainset m) ++ [(i, [])])%list)
    end.

(** ** Sorting *)

(** [l.sort(key=key, reverse=True)] and [sorted(l, key=key, reverse=True)]:
    the sort is stable, also when reversed, so the result is the arrangement
    of [l] by descending key in which elements of equal key keep the order
    they had in [l].  An element is put in front of the first later element
    whose key is not greater than its own. *)
Section Sort.
Context {A K : Type} (ltb : K -> K -> bool) (key : A -> K).

Fixpoint insert_desc (x : A) (l : list A) : list A :=
  match l with
  | [] => [x]
  | y :: r => if ltb (key x) (key y) then y :: insert_desc x r else x :: l
  end.

Definition sort_desc (l : list A) : list A := fold_right insert_desc [] l.

(** [a] may stand before [b]: the key of [a] is not below that of [b]. *)
Definition not_below (a b : A) : Prop := ltb (key a) (key b) = false.

(** [a] has a key equal to [k]: neither is below the other. *)
Definition same_key (k : K) (a : A) : bool :=
  (negb (ltb (key a) k) && negb (ltb k (key a)))%bool.
End Sort.

(** ** generate_recommendations *)

Definition set_of_list (l : list RawId) : list RawId := nodup RawId_eq_dec l.

(** [r in s] *)
Definition set_mem (r : RawId) (s : list RawId) : bool := existsb (RawId_eqb r) s.

(** The [try] block that looks the user up: the set of raw ids of the items
    the user rated and [True], or the empty set and [False] when a
    [ValueError] is raised on the way. *)
Definition lookup_user (user_id : PyVal) : M (list RawId * bool) :=
  try_except ValueError
    (user_inner_id <- trainset_to_inner_uid user_id ;;
     rated <- trainset_ur user_inner_id ;;
     raws <- mapM (fun p => trainset_to_raw_iid (fst p)) rated ;;
     ret (set_of_list raws, true))
    (ret ([], false)).

(** [[str(item_id) for item_id, _ in top]] *)
Definition render {V : Type} (top : list (RawId * V)) : list string :=
  map (fun p => py_str (fst p)) top.

Definition generate_recommendations
    (user_id num_recommendations exclude_seen : PyVal) : M (list string * bool) :=
  all_items <- trainset_all_items ;;
  '(seen_items, user_exists) <- lookup_user user_id ;;
  if (user_exists : bool) then
    candidate_items <-
      (if py_truthy exclude_seen then
         comprehension_if
           (fun inner_id =>
              r <- trainset_to_raw_iid inner_id ;; ret (negb (set_mem r seen_items)))
           trainset_to_raw_iid all_items
       else mapM trainset_to_raw_iid all_items) ;;
    predictions <-
      mapM (fun item_id => e <- model_predict user_id item_id ;; ret (item_id, e))
           candidate_items ;;
    let predictions := sort_desc Qltb snd predictions in
    top <- lift (py_slice_to num_recommendations predictions) ;;
    ret (render top, user_exists)
  else
    item_popularity <-
      dict_comprehension
        (fun inner_id =>
           k <- trainset_to_raw_iid inner_id ;;
           v <- trainset_ir inner_id ;;
           ret (k, List.length v))
        all_items [] ;;
    let most_popular := sort_desc Nat.ltb snd item_popularity in
    top <- lift (py_slice_to num_recommendations most_popular) ;;
    ret (render top, user_exists).

(** ** The HTTP layer *)

(** A request as the handler reads it: the query parameters, and the decoded
    JSON body, [None] when the body is not JSON. *)
Record HttpRequest : Type := mkRequest {
  params : list (string * string);
  json : option PyVal
}.

(** [req.get_json()] raises [ValueError] when the body is not JSON. *)
Definition get_json (req : HttpRequest) : Res PyVal :=
  match json req with
  | Some v => Ok v
  | None => Raise (mkExn ValueError "HTTP request does not contain valid JSON data")
  end.

(** A response: [body] is the object handed to [json.dumps]. *)
Record HttpResponse : Type := mkResponse {
  body : PyVal;
  status_code : Z;
  headers : list (string * string)
}.

Fixpoint assoc_get {V : Type} (k : string) (d : list (string * V)) : option V :=
  match d with
  | [] => None
  | (k', v) :: r => if String.eqb k k' then Some v else assoc_get k r
  end.

(** [req.params.get(k)] *)
Definition params_get (req : HttpRequest) (k : string) : PyVal :=
  match assoc_get k (params req) with
  | Some s => PStr s
  | None => PNone
  end.

(** [req.params.get(k, default)] *)
Definition params_get_default (req : HttpRequest) (k : string) (default : PyVal)
    : PyVal :=
  match assoc_get k (params req) with
  | Some s => PStr s
  | None => default
  end.

(** [v.get(k, default)]: only a dictionary has the method. *)
Definition py_get (v : PyVal) (k : string) (default : PyVal) : Res PyVal :=
  match v with
  | PDict d =>
      match assoc_get k d with
      | Some x => Ok x
      | None => Ok default
      end
  | _ => Raise (mkExn AttributeError
                  ("'" ++ type_name v ++ "' object has no attribute 'get'"))
  end.

(** [s.lower() == 'true'], on the value of a query parameter *)
Definition lower_is_true (v : PyVal) : Res PyVal :=
  match v with
  | PStr s => Ok (PBool (String.eqb (lower s) "true"))
  | _ => Raise (mkExn AttributeError
                  ("'" ++ type_name v ++ "' object has no attribute 'lower'"))
  end.

Definition res_bind {A B : Type} (c : Res A) (k : A -> Res B) : Res B :=
  match c with
  | Ok a => k a
  | Raise e => Raise e
  end.

Notation "'let*' x ':=' c 'in' k" := (res_bind c (fun x => k))
  (at level 61, x pattern, c at next level, right associativity).

(** [try: c except ValueError: pass], where [c] assigns the three variables
    at once and [keep] holds their values from before *)
Definition or_keep_on_ValueError {A : Type} (c : Res A) (keep : A) : Res A :=
  match c with
  | Raise e => if ExnClass_eqb (exn_class e) ValueError then Ok keep else Raise e
  | r => r
  end.

(** [try: user_id = int(user_id) except (TypeError, ValueError): pass] *)
Definition int_if_possible (user_id : PyVal) : Res PyVal :=
  match py_int user_id with
  | Ok z => Ok (PInt z)
  | Raise e =>
      if (ExnClass_eqb (exn_class e) TypeError
          || ExnClass_eqb (exn_class e) ValueError)%bool
      then Ok user_id else Raise e
  end.

Definition extract_request_params (req : HttpRequest)
    : Res (PyVal * PyVal * PyVal) :=
  let user_id := params_get req "user_id" in
  let* n := py_int (params_get_default req "num_recommendations" (PInt 10)) in
  let num_recommendations := PInt n in
  let* exclude_seen :=
    lower_is_true (params_get_default req "exclude_seen" (PStr "true")) in
  let* (user_id, num_recommendations, exclude_seen) :=
    (if negb (py_truthy user_id) then
       or_keep_on_ValueError
         (let* req_body := get_json req in
          if py_truthy req_body then
            let* user_id := py_get req_body "user_id" PNone in
            let* num_recommendations :=
              py_get req_body "num_recommendations" (PInt 10) in
            let* exclude_seen := py_get req_body "exclude_seen" (PBool true) in
            Ok (user_id, num_recommendations, exclude_seen)
          else Ok (user_id, num_recommendations, exclude_seen))
         (user_id, num_recommendations, exclude_seen)
     else Ok (user_id, num_recommendations, exclude_seen)) in
  let* user_id := int_if_possible user_id in
  let* lo := py_min num_recommendations (PInt 100) in
  let* num_recommendations := py_max (PInt 1) lo in
  Ok (user_id, num_recommendations, exclude_seen).

Definition create_error_response (error message : string) (status_code : Z)
    : HttpResponse :=
  mkResponse
    (PDict [("error", PStr error); ("message", PStr message);
            ("status", PStr "error")])
    status_code
    [("Content-Type", "application/json")].

(** The process holds the model in the module-level variable [MODEL], [None]
    when loading failed. *)
Record Process : Type := mkProcess { MODEL : option Model }.


(** The body of the [try] block of [recommendation_function]. *)
Definition recommendation_body (req : HttpRequest) : M HttpResponse :=
  '(user_id, num_recommendations, exclude_seen) <-
     lift (extract_request_params req) ;;
  if negb (py_truthy user_id) then
    ret (create_error_response "user_id manquant" "Veuillez fournir un user_id" 400)
  else
    '(recommendations, user_exists) <-
       generate_recommendations user_id num_recommendations exclude_seen ;;
    let user_known_msg := if (user_exists : bool) then "Oui" else "Non" in
    let response_data :=
      [("ID de l'utilisateur", user_id);
       ("L'utilisateur est-il déjà connu ?", PStr user_known_msg);
       ("Nombre d'articles recommandés",
         PInt (Z.of_nat (List.length recommendations)));
       ("Numéros des articles recommandés", PList (map PStr recommendations))] in
    ret (mkResponse (PDict response_data) 200
           [("Content-Type", "application/json; charset=utf-8")]).

Definition recommendation_function (req : HttpRequest) (p : Process)
    : HttpResponse * Process :=
  match MODEL p with
  | None =>
      (create_error_response "Modele non charge"
         "Le modele n'a pas pu etre initialise au demarrage" 500, p)
  | Some model =>
      match recommendation_body req model with
      | (Ok response, model') => (response, mkProcess (Some model'))
      | (Raise e, model') =>
          (create_error_response "Erreur interne du moteur de recommandation"
             (exn_msg e) 500, mkProcess (Some model'))
      end
  end.

Definition health_check (req : HttpRequest) (p : Process) : HttpResponse * Process :=
  (mkResponse
     (PDict [("status", PStr "healthy");
             ("message", PStr "Recommendation service is running");
             ("architecture", PStr "Azure Function + Blob Storage Input Binding")])
     200
     [("Content-Type", "application/json")], p).

(** ** What a request reads from the model *)

(** [[f(x) for x in l]] without the state: all results, or the first
    exception. *)
Fixpoint res_mapM {A B : Type} (f : A -> Res B) (l : list A) : Res (list B) :=
  match l with
  | [] => Ok []
  | x :: r =>
      match f x with
      | Ok y =>
          match res_mapM f r with
          | Ok ys => Ok (y :: ys)
          | Raise e => Raise e
          end
      | Raise e => Raise e
      end
  end.

(** The value of [d[k]] in a dictionary with default [[]]. *)
Definition dd_get (k : nat) (d : DefaultDict) : Ratings :=
  match dd_lookup k d with
  | Some l => l
  | None => []
  end.

(** The raw ids of the items, in the order of [all_items()]. *)
Definition item_ids (t : Trainset) : Res (list RawId) :=
  res_mapM (to_raw_iid t) (seq 0 (n_items t)).

(** The raw ids of the items that user [u] rated. *)
Definition seen_ids (t : Trainset) (u : nat) : Res (list RawId) :=
  res_mapM (fun p => to_raw_iid t (fst p)) (dd_get u (ur t)).

(** Number of ratings of item [i] in the training data. *)
Definition popularity (t : Trainset) (i : nat) : nat := List.length (dd_get i (ir t)).

(** The items with their number of ratings, in enumeration order. *)
Definition items_by_enumeration (t : Trainset) (raws : list RawId)
    : list (RawId * nat) :=
  map (fun p => (snd p, popularity t (fst p))) (combine (seq 0 (n_items t)) raws).

(** The candidates of a known user, in enumeration order. *)
Definition candidate_pool (raws seen : list RawId) (exclude_seen : bool)
    : list RawId :=
  if exclude_seen then filter (fun r => negb (set_mem r seen)) raws else raws.

(** Candidates with the estimate of the model for user [uid]. *)
Definition scored (m : Model) (uid : PyVal) (pool : list RawId) : list (RawId * Q) :=
  map (fun r => (r, est m uid r)) pool.

(** The ranking of a known user's candidates, and the ranking by number of
    ratings. *)
Definition personal_ranking (m : Model) (uid : PyVal) (pool : list RawId)
    : list (RawId * Q) :=
  sort_desc Qltb snd (scored m uid pool).

Definition popularity_ranking (t : Trainset) (raws : list RawId)
    : list (RawId * nat) :=
  sort_desc Nat.ltb snd (items_by_enumeration t raws).

(** The known user's candidates by descending estimate. *)
Definition ranked_ids (m : Model) (uid : PyVal) (pool : list RawId) : list RawId :=
  sort_desc Qltb (est m uid) pool.

(** The result of the function from the ranking it cut. *)
Definition answer {V : Type} (n : PyVal) (ranking : list (RawId * V)) (known : bool)
    : Res (list string * bool) :=
  match py_slice_to n ranking with
  | Ok top => Ok (render top, known)
  | Raise e => Raise e
  end.

Definition known_user (t : Trainset) (uid : PyVal) (seen : list RawId) : Prop :=
  exists u, to_inner_uid t uid = Ok u /\ seen_ids t u = Ok seen.

Definition unknown_user (t : Trainset) (uid : PyVal) : Prop :=
  exists e, to_inner_uid t uid = Raise e /\ exn_class e = ValueError.

(** Every entry the handler reads from [ur] and [ir] for user [uid] is
    there. *)
Definition entries_present (t : Trainset) (uid : PyVal) : Prop :=
  (forall i, (i < n_items t)%nat -> dd_lookup i (ir t) <> None) /\
  (forall u, to_inner_uid t uid = Ok u -> dd_lookup u (ur t) <> None).

(** [m'] answers every read of the handler as [m] does. *)
Definition same_reads (m m' : Model) : Prop :=
  n_items (trainset m') = n_items (trainset m) /\
  to_inner_uid (trainset m') = to_inner_uid (trainset m) /\
  to_raw_iid (trainset m') = to_raw_iid (trainset m) /\
  est m' = est m /\
  (forall k, dd_get k (ur (trainset m')) = dd_get k (ur (trainset m))) /\
  (forall k, dd_get k (ir (trainset m')) = dd_get k (ir (trainset m))).

(** A computation that leaves every answer of the model as it was, and whose
    result is fixed by those answers. *)
Definition reads_only {A : Type} (c : M A) : Prop :=
  (forall m, same_reads m (snd (c m))) /\
  (forall m m', same_reads m m' -> fst (c m') = fst (c m)).

(** A computation that hands model [m] back as it got it. *)
Definition keeps {A : Type} (c : M A) (m : Model) : Prop := snd (c m) = m.

(** The model after a series of calls of [generate_recommendations]. *)
Fixpoint after_calls (calls : list (PyVal * PyVal * PyVal)) (m : Model) : Model :=
  match calls with
  | [] => m
  | (uid, n, ex) :: r => after_calls r (snd (generate_recommendations uid n ex m))
  end.

(** The dictionary that [{to_raw_iid(i): len(ir[i]) for i in all_items}]
    builds from the items [l] with raw ids [raws]. *)
Definition popularity_dict (pop : nat -> nat) (l : list nat) (raws : list RawId)
    (acc : list (RawId * nat)) : list (RawId * nat) :=
  fold_left (fun acc p => dict_set (snd p) (pop (fst p)) acc) (combine l raws) acc.

(** Distinct raw ids of [raws] are written differently by [str]. *)
Definition str_injective_on (raws : list RawId) : Prop :=
  forall a b, In a raws -> In b raws -> py_str a = py_str b -> a = b.

(** ** What a request supplies *)

(** Where [extract_request_params] takes the three parameters from: the query
    string, or the JSON body when the query holds no usable [user_id] and the
    body is a non-empty object; a body that is some other true value has no
    [get] method. *)
Inductive ParamSource : Type :=
| FromQuery
| FromBody (d : list (string * PyVal))
| BodyNotObject.

Definition param_source (req : HttpRequest) : ParamSource :=
  if py_truthy (params_get req "user_id") then FromQuery
  else match json req with
       | None => FromQuery
       | Some v =>
           if py_truthy v then
             match v with
             | PDict d => FromBody d
             | _ => BodyNotObject
             end
           else FromQuery
       end.

(** [int(req.params.get('num_recommendations', 10))] *)
Definition query_num (req : HttpRequest) : Res Z :=
  py_int (params_get_default req "num_recommendations" (PInt 10)).

(** [req.params.get('exclude_seen', 'true').lower() == 'true'] *)
Definition query_exclude_seen (req : HttpRequest) : bool :=
  match assoc_get "exclude_seen" (params req) with
  | Some s => String.eqb (lower s) "true"
  | None => true
  end.

(** The identifier after the attempt to make it an integer; there is none,
    [None], when the attempt raises an exception that is not handled. *)
Definition coerced (v : PyVal) : PyVal :=
  match int_if_possible v with
  | Ok user_id => user_id
  | Raise _ => PNone
  end.

(** The field [k] of the body, or [default]. *)
Definition field (d : list (string * PyVal)) (k : string) (default : PyVal) : PyVal :=
  match assoc_get k d with
  | Some v => v
  | None => default
  end.

(** The texts that [int] is applied to are ASCII texts: the query values of
    [user_id] and [num_recommendations], and a [user_id] of the body. *)
Definition ascii_value (v : PyVal) : bool :=
  match v with
  | PStr s => ascii_text s
  | _ => true
  end.

Definition ascii_request (req : HttpRequest) : bool :=
  (ascii_value (params_get req "user_id")
   && ascii_value (params_get req "num_recommendations")
   && match json req with
      | Some (PDict d) => ascii_value (field d "user_id" PNone)
      | _ => true
      end)%bool.

(** The request names no user: there is no [user_id] in the query string, and
    none in the body when the body is a JSON object. *)
Definition user_id_absent (req : HttpRequest) : Prop :=
  assoc_get "user_id" (params req) = None /\
  match json req with
  | Some (PDict d) => assoc_get "user_id" d = None
  | _ => True
  end.

Definition internal_error (e : Exn) : HttpResponse :=
  create_error_response "Erreur interne du moteur de recommandation" (exn_msg e) 500.

(** The class of the exception a result raises, if it raises. *)
Definition exn_class_of {A : Type} (r : Res A) : option ExnClass :=
  match r with
  | Ok _ => None
  | Raise e => Some (exn_class e)
  end.

(** ** Example requests *)

Definition req_query_5_body_user : HttpRequest :=
  mkRequest [("num_recommendations", "5")] (Some (PDict [("user_id", PInt 7)])).


Definition req_bad_count : HttpRequest :=
  mkRequest [("num_recommendations", "abc")] None.

Definition req_user_1 : HttpRequest :=
  mkRequest [("user_id", "1"); ("num_recommendations", "250")]
    (Some (PDict [("num_recommendations", PInt 3)])).

Definition req_body_user : HttpRequest :=
  mkRequest [] (Some (PDict [("user_id", PInt 1); ("num_recommendations", PInt 0)])).

Definition req_nothing : HttpRequest := mkRequest [] None.

(** ** Example models *)

Definition value_error (msg : string) : Exn := mkExn ValueError msg.

(** Users 1, 2 and 3, items A, B and C: user 1 rated A, user 2 rated A and B,
    user 3 rated B and C. *)
Definition ts_abc : Trainset :=
  mkTrainset 3
    (fun v => match v with
              | PInt 1 => Ok 0%nat
              | PInt 2 => Ok 1%nat
              | PInt 3 => Ok 2%nat
              | _ => Raise (value_error "User is not part of the trainset.")
              end)
    (fun i => match i with
              | 0%nat => Ok (RStr "A")
              | 1%nat => Ok (RStr "B")
              | 2%nat => Ok (RStr "C")
              | _ => Raise (value_error "Item is not part of the trainset.")
              end)
    [(0%nat, [(0%nat, 5 # 1)]);
     (1%nat, [(0%nat, 4 # 1); (1%nat, 3 # 1)]);
     (2%nat, [(1%nat, 2 # 1); (2%nat, 4 # 1)])]
    [(0%nat, [(0%nat, 5 # 1); (1%nat, 4 # 1)]);
     (1%nat, [(1%nat, 3 # 1); (2%nat, 2 # 1)]);
     (2%nat, [(2%nat, 4 # 1)])].

Definition model_abc : Model :=
  mkModel ts_abc
    (fun _ i => match i with
                | RStr "B" => 9 # 10
                | RStr "C" => 4 # 10
                | _ => 1 # 2
                end).

Definition raws_abc : list RawId := [RStr "A"; RStr "B"; RStr "C"].

(** Two items whose raw ids are the integer 1 and the string "1". *)
Definition ts_mixed : Trainset :=
  mkTrainset 2
    (fun v => match v with
              | PInt 1 => Ok 0%nat
              | PInt 2 => Ok 1%nat
              | _ => Raise (value_error "User is not part of the trainset.")
              end)
    (fun i => match i with
              | 0%nat => Ok (RInt 1)
              | 1%nat => Ok (RStr "1")
              | _ => Raise (value_error "Item is not part of the trainset.")
              end)
    [(0%nat, [(0%nat, 5 # 1)]); (1%nat, [(1%nat, 4 # 1)])]
    [(0%nat, [(0%nat, 5 # 1)]); (1%nat, [(1%nat, 4 # 1)])].

Definition model_mixed : Model := mkModel ts_mixed (fun _ _ => 1 # 2).

(** ** Requests served one after the other *)

(** The responses to [reqs], each served on the process the one before left. *)
Fixpoint serve (reqs : list HttpRequest) (p : Process)
    : list HttpResponse * Process :=
  match reqs with
  | [] => ([], p)
  | req :: rest =>
      let '(response, p') := recommendation_function req p in
      let '(responses, p'') := serve rest p' in
      (response :: responses, p'')
  end.

(** Two processes whose models, if any, answer every read alike. *)
Definition same_process (p p' : Process) : Prop :=
  match MODEL p, MODEL p' with
  | None, None => True
  | Some m, Some m' => same_reads m m'
  | _, _ => False
  end.

(** The object of a successful response. *)
Definition success_body (user_id : PyVal) (known : bool) (recs : list string)
    : PyVal :=
  PDict [("ID de l'utilisateur", user_id);
         ("L'utilisateur est-il déjà connu ?", PStr (if known then "Oui" else "Non"));
         ("Nombre d'articles recommandés", PInt (Z.of_nat (List.length recs)));
         ("Numéros des articles recommandés", PList (map PStr recs))].

Definition success_response (user_id : PyVal) (known : bool) (recs : list string)
    : HttpResponse :=
  mkResponse (success_body user_id known recs) 200
    [("Content-Type", "application/json; charset=utf-8")].

(** ** The client form (app.py) *)

Definition user_ids : list Z := [1; 2; 123; 456; 789; 101112; 131415].

(** [FUNCTION_URL]: the key read from the environment is put in the query
    string as [code], as the text [None] when the variable is not set. *)
Definition function_key_text (function_key : option string) : string :=
  match function_key with
  | Some k => k
  | None => "None"
  end.

(** The request of [requests.get(FUNCTION_URL, params=params)] as the function
    receives it: the parameters of the URL, then those of [params] with the
    integers written by [str]; a GET request has no body. *)
Definition client_request (function_key : option string) (selected_user num_reco : Z)
    : HttpRequest :=
  mkRequest
    [("code", function_key_text function_key);
     ("user_id", str_of_Z selected_user);
     ("num_recommendations", str_of_Z num_reco);
     ("exclude_seen", "true")]
    None.

(** What the page shows: a text, a value, or an error with the status and
    the body received. *)
Inductive Shown : Type :=
| Text (s : string)
| Value (v : PyVal)
| Error (status : Z) (received : PyVal).

(** [data[k]] on the decoded response; [None] when the script stops on a
    missing key or on a response that is not an object. *)
Definition data_get (data : PyVal) (k : string) : option PyVal :=
  match data with
  | PDict d => assoc_get k d
  | _ => None
  end.

(** [user_known == "Non"] *)
Definition is_non (v : PyVal) : bool :=
  match v with
  | PStr s => String.eqb s "Non"
  | _ => false
  end.

(** The branch of the page that handles the response. *)
Definition show_response (response : HttpResponse) : option (list Shown) :=
  if status_code response =? 200 then
    match data_get (body response) "L'utilisateur est-il déjà connu ?" with
    | None => None
    | Some user_known =>
        match data_get (body response) "Numéros des articles recommandés" with
        | None => None
        | Some articles =>
            Some ((if is_non user_known
                   then [Text "**Nouvel utilisateur ➡️ Suggestion des articles les plus populaires**"]
                   else [])
                  ++ [Text "**Numéros des articles recommandés pour l'utilisateur choisi :**";
                      Value articles])%list
        end
    end
  else Some [Error (status_code response) (body response)].

(** A click on the button, with the function answering the request. *)
Definition click (function_key : option string) (selected_user num_reco : Z)
    (p : Process) : option (list Shown) * Process :=
  let '(response, p') :=
    recommendation_function (client_request function_key selected_user num_reco) p in
  (show_response response, p').

(** ** More example models *)



(** One user, who rated the one item. *)
Definition ts_single : Trainset :=
  mkTrainset 1
    (fun v => match v with
              | PInt 1 => Ok 0%nat
              | _ => Raise (value_error "User is not part of the trainset.")
              end)
    (fun i => match i with
              | 0%nat => Ok (RStr "A")
              | _ => Raise (value_error "Item is not part of the trainset.")
              end)
    [(0%nat, [(0%nat, 5 # 1)])]
    [(0%nat, [(0%nat, 5 # 1)])].

Definition model_single : Model := mkModel ts_single (fun _ _ => 1 # 2).


Definition req_body_exclude (v : PyVal) : HttpRequest :=
  mkRequest [] (Some (PDict [("user_id", PInt 1); ("exclude_seen", v)])).

(** * Properties *)

(** ** The stable descending sort *)

Section SortFacts.
Context {A K : Type} (ltb : K -> K -> bool) (key : A -> K).
Hypothesis ltb_asym : forall a b, ltb a b = true -> ltb b a = false.
Hypothesis ltb_negtrans :
  forall a b c, ltb a b = false -> ltb b c = false -> ltb a c = false.

Lemma insert_desc_perm (x : A) (l : list A) :
  Permutation (insert_desc ltb key x l) (x :: l).
Proof.
  induction l as [|y r IH]; simpl.
  - apply Permutation_refl.
  - destruct (ltb (key x) (key y)).
    + eapply perm_trans; [apply perm_skip, IH | apply perm_swap].
    + apply Permutation_refl.
Qed.

Lemma sort_desc_perm (l : list A) : Permutation (sort_desc ltb key l) l.
Proof.
  induction l as [|x r IH]; simpl.
  - constructor.
  - eapply perm_trans; [apply insert_desc_perm | apply perm_skip, IH].
Qed.

Lemma insert_desc_sorted (x : A) (l : list A) :
  StronglySorted (not_below ltb key) l ->
  StronglySorted (not_below ltb key) (insert_desc ltb key x l).
Proof.
  induction l as [|y r IH]; simpl; intros Hs.
  - constructor; constructor.
  - inversion Hs as [|? ? Hr Hy]; subst.
    destruct (ltb (key x) (key y)) eqn:E.
    + constructor; [apply IH, Hr|].
      eapply Permutation_Forall;
        [apply Permutation_sym, insert_desc_perm|].
      constructor; [apply ltb_asym, E | exact Hy].
    + constructor; [exact Hs|].
      constructor; [exact E|].
      rewrite Forall_forall in *. intros z Hz.
      eapply ltb_negtrans; [exact E | apply Hy, Hz].
Qed.

Lemma sort_desc_sorted (l : list A) :
  StronglySorted (not_below ltb key) (sort_desc ltb key l).
Proof.
  induction l as [|x r IH]; simpl.
  - constructor.
  - apply insert_desc_sorted, IH.
Qed.

Lemma insert_desc_filter (k : K) (x : A) (l : list A) :
  filter (same_key ltb key k) (insert_desc ltb key x l)
  = filter (same_key ltb key k) (x :: l).
Proof.
  induction l as [|y r IH]; [reflexivity|].
  cbn [insert_desc]. destruct (ltb (key x) (key y)) eqn:E; [|reflexivity].
  cbn [filter] in *. rewrite IH.
  destruct (same_key ltb key k x) eqn:Ex; [|reflexivity].
  destruct (same_key ltb key k y) eqn:Ey; [|reflexivity].
  exfalso. unfold same_key in Ex, Ey.
  apply andb_prop in Ex as [Ex _]. apply andb_prop in Ey as [_ Ey].
  apply negb_true_iff in Ex, Ey.
  rewrite (ltb_negtrans _ _ _ Ex Ey) in E. discriminate.
Qed.

(** Elements of equal key leave the sort in the order they entered it. *)
Lemma sort_desc_stable (k : K) (l : list A) :
  filter (same_key ltb key k) (sort_desc ltb key l)
  = filter (same_key ltb key k) l.
Proof.
  induction l as [|x r IH]; [reflexivity|].
  cbn [sort_desc fold_right]. rewrite insert_desc_filter.
  cbn [filter]. fold (sort_desc ltb key r). rewrite IH. reflexivity.
Qed.

(** A prefix of a sorted list holds its greatest elements. *)
Lemma sorted_split_top (l1 l2 : list A) :
  StronglySorted (not_below ltb key) (l1 ++ l2)%list ->
  forall a b, In a l1 -> In b l2 -> not_below ltb key a b.
Proof.
  induction l1 as [|x r IH]; simpl; intros Hs a b Ha Hb; [contradiction|].
  inversion Hs as [|? ? Hr Hx]; subst.
  destruct Ha as [<-|Ha].
  - rewrite Forall_forall in Hx. apply Hx, in_or_app. now right.
  - now apply IH.
Qed.

Lemma ltb_irrefl (a : K) : ltb a a = false.
Proof.
  destruct (ltb a a) eqn:E; [|reflexivity].
  pose proof (ltb_asym a a E). congruence.
Qed.

Lemma same_key_self (x : A) : same_key ltb key (key x) x = true.
Proof. unfold same_key. now rewrite ltb_irrefl. Qed.

Lemma filter_head_In (p : A -> bool) (l l' : list A) (x : A) :
  filter p l = x :: l' -> In x l.
Proof.
  intros H. assert (Hin : In x (filter p l)) by (rewrite H; now left).
  now apply filter_In in Hin.
Qed.

(** Two descending arrangements that keep elements of equal key in the same
    order are the same list. *)
Lemma sorted_stable_unique (l1 : list A) :
  forall l2 : list A,
    StronglySorted (not_below ltb key) l1 ->
    StronglySorted (not_below ltb key) l2 ->
    (forall k, filter (same_key ltb key k) l1 = filter (same_key ltb key k) l2) ->
    l1 = l2.
Proof.
  induction l1 as [|x r1 IH]; intros l2 Hs1 Hs2 Hf.
  - destruct l2 as [|y r2]; [reflexivity|].
    specialize (Hf (key y)). cbn [filter] in Hf. rewrite same_key_self in Hf.
    discriminate.
  - destruct l2 as [|y r2].
    + specialize (Hf (key x)). cbn [filter] in Hf. rewrite same_key_self in Hf.
      discriminate.
    + inversion Hs1 as [|? ? Hr1 Hx]; subst. inversion Hs2 as [|? ? Hr2 Hy]; subst.
      rewrite Forall_forall in Hx, Hy.
      assert (Hxy : not_below ltb key x y).
      { assert (Hin : In y (x :: r1)).
        { apply (filter_head_In (same_key ltb key (key y)) _ (filter (same_key ltb key (key y)) r2)).
          rewrite Hf. cbn [filter]. now rewrite same_key_self. }
        destruct Hin as [<-|Hin]; [apply ltb_irrefl | now apply Hx]. }
      assert (Hyx : not_below ltb key y x).
      { assert (Hin : In x (y :: r2)).
        { apply (filter_head_In (same_key ltb key (key x)) _ (filter (same_key ltb key (key x)) r1)).
          rewrite <- Hf. cbn [filter]. now rewrite same_key_self. }
        destruct Hin as [<-|Hin]; [apply ltb_irrefl | now apply Hy]. }
      assert (Heq : x = y).
      { specialize (Hf (key x)). cbn [filter] in Hf. rewrite same_key_self in Hf.
        unfold same_key in Hf at 2. unfold not_below in Hxy, Hyx.
        rewrite Hxy, Hyx in Hf. cbn [negb andb] in Hf. congruence. }
      subst y. f_equal. apply IH; [exact Hr1 | exact Hr2 |].
      intros k. specialize (Hf k). cbn [filter] in Hf.
      destruct (same_key ltb key k x); congruence.
Qed.

(** The stable descending sort of [l] is the only list that is descending
    and keeps the elements of each key in the order of [l]. *)
Lemma sort_desc_unique (l out : list A) :
  StronglySorted (not_below ltb key) out ->
  (forall k, filter (same_key ltb key k) out = filter (same_key ltb key k) l) ->
  out = sort_desc ltb key l.
Proof.
  intros Hs Hf. apply sorted_stable_unique; [exact Hs | apply sort_desc_sorted |].
  intros k. now rewrite Hf, sort_desc_stable.
Qed.
End SortFacts.

Lemma Qltb_asym (a b : Q) : Qltb a b = true -> Qltb b a = false.
Proof.
  unfold Qltb. rewrite negb_true_iff, negb_false_iff. intros H.
  apply Qle_bool_iff. destruct (Qlt_le_dec b a) as [Hlt|Hle]; [|exact Hle].
  apply Qlt_le_weak in Hlt. apply Qle_bool_iff in Hlt. congruence.
Qed.

Lemma Qltb_negtrans (a b c : Q) :
  Qltb a b = false -> Qltb b c = false -> Qltb a c = false.
Proof.
  unfold Qltb. rewrite !negb_false_iff, !Qle_bool_iff. intros H1 H2.
  eapply Qle_trans; eassumption.
Qed.

Lemma Qltb_false_iff (a b : Q) : Qltb a b = false <-> (b <= a)%Q.
Proof. unfold Qltb. now rewrite negb_false_iff, Qle_bool_iff. Qed.

Lemma same_key_Q {A : Type} (key : A -> Q) (q : Q) (a : A) :
  same_key Qltb key q a = Qeq_bool (key a) q.
Proof.
  unfold same_key, Qltb. rewrite !negb_involutive.
  destruct (Qeq_bool (key a) q) eqn:E.
  - apply Qeq_bool_iff in E. apply andb_true_intro. split; apply Qle_bool_iff.
    + rewrite E. apply Qle_refl.
    + rewrite E. apply Qle_refl.
  - apply andb_false_iff.
    destruct (Qle_bool q (key a)) eqn:E1; [|now left].
    destruct (Qle_bool (key a) q) eqn:E2; [|now right].
    apply Qle_bool_iff in E1, E2.
    assert (H : (key a == q)%Q) by (apply Qle_antisym; assumption).
    apply Qeq_bool_iff in H. congruence.
Qed.

Lemma Nat_ltb_asym (a b : nat) : Nat.ltb a b = true -> Nat.ltb b a = false.
Proof. rewrite Nat.ltb_lt, Nat.ltb_ge. lia. Qed.

Lemma Nat_ltb_negtrans (a b c : nat) :
  Nat.ltb a b = false -> Nat.ltb b c = false -> Nat.ltb a c = false.
Proof. rewrite !Nat.ltb_ge. lia. Qed.

Lemma same_key_nat {A : Type} (key : A -> nat) (k : nat) (a : A) :
  same_key Nat.ltb key k a = Nat.eqb (key a) k.
Proof.
  unfold same_key.
  destruct (Nat.ltb_spec (key a) k), (Nat.ltb_spec k (key a)),
    (Nat.eqb_spec (key a) k); simpl; try reflexivity; lia.
Qed.

(** ** Running the recommender on a model *)

Lemma same_reads_refl (m : Model) : same_reads m m.
Proof. repeat split. Qed.

Lemma same_reads_trans (m1 m2 m3 : Model) :
  same_reads m1 m2 -> same_reads m2 m3 -> same_reads m1 m3.
Proof.
  intros (A1 & A2 & A3 & A4 & A5 & A6) (B1 & B2 & B3 & B4 & B5 & B6).
  repeat split; congruence.
Qed.

Lemma dd_get_default_entry (i k : nat) (d : DefaultDict) :
  dd_lookup i d = None -> dd_get k (d ++ [(i, [])])%list = dd_get k d.
Proof.
  unfold dd_get. induction d as [|[k' v] r IH]; simpl; intros H.
  - now destruct (Nat.eqb k i).
  - destruct (Nat.eqb i k') eqn:E; [discriminate|].
    destruct (Nat.eqb k k'); [reflexivity | now apply IH].
Qed.

Lemma trainset_ur_run (u : nat) (m : Model) :
  exists m', trainset_ur u m = (Ok (dd_get u (ur (trainset m))), m')
             /\ same_reads m m'
             /\ (dd_lookup u (ur (trainset m)) <> None -> m' = m).
Proof.
  unfold trainset_ur, dd_get. destruct (dd_lookup u (ur (trainset m))) eqn:E.
  - exists m. repeat split.
  - eexists. split; [reflexivity|]. split; [|congruence].
    repeat split. intros k. simpl. now apply dd_get_default_entry.
Qed.

Lemma trainset_ir_run (i : nat) (m : Model) :
  exists m', trainset_ir i m = (Ok (dd_get i (ir (trainset m))), m')
             /\ same_reads m m'
             /\ (dd_lookup i (ir (trainset m)) <> None -> m' = m).
Proof.
  unfold trainset_ir, dd_get. destruct (dd_lookup i (ir (trainset m))) eqn:E.
  - exists m. repeat split.
  - eexists. split; [reflexivity|]. split; [|congruence].
    repeat split. intros k. simpl. now apply dd_get_default_entry.
Qed.

Lemma res_mapM_cons {A B : Type} (f : A -> Res B) (x : A) (l : list A)
    (ys : list B) :
  res_mapM f (x :: l) = Ok ys ->
  exists y ys', f x = Ok y /\ res_mapM f l = Ok ys' /\ ys = y :: ys'.
Proof.
  simpl. destruct (f x) as [y|]; [|discriminate].
  destruct (res_mapM f l) as [ys'|]; [|discriminate].
  intros [= <-]. now exists y, ys'.
Qed.

Lemma res_mapM_length {A B : Type} (f : A -> Res B) (l : list A) (ys : list B) :
  res_mapM f l = Ok ys -> List.length ys = List.length l.
Proof.
  revert ys. induction l as [|x r IH]; intros ys H.
  - now injection H as <-.
  - apply res_mapM_cons in H as (y & ys' & _ & H & ->). simpl. f_equal. now apply IH.
Qed.

(** A comprehension whose element neither changes the model nor depends on
    anything else. *)
Lemma mapM_read {A B : Type} (f : A -> M B) (g : A -> Res B) (l : list A)
    (m : Model) :
  (forall x, f x m = (g x, m)) -> mapM f l m = (res_mapM g l, m).
Proof.
  intros Hf. induction l as [|x r IH]; [reflexivity|].
  cbn [mapM res_mapM]. unfold bind at 1. rewrite Hf.
  destruct (g x) as [y|e]; [|reflexivity].
  unfold bind at 1. rewrite IH. now destruct (res_mapM g r).
Qed.

Lemma mapM_to_raw_iid (l : list nat) (m : Model) :
  mapM trainset_to_raw_iid l m = (res_mapM (to_raw_iid (trainset m)) l, m).
Proof. now apply mapM_read. Qed.

Lemma mapM_rated (rated : Ratings) (m : Model) :
  mapM (fun p => trainset_to_raw_iid (fst p)) rated m
  = (res_mapM (fun p => to_raw_iid (trainset m) (fst p)) rated, m).
Proof. now apply mapM_read. Qed.

Lemma mapM_predict (uid : PyVal) (pool : list RawId) (m : Model) :
  mapM (fun item_id => e <- model_predict uid item_id ;; ret (item_id, e)) pool m
  = (Ok (scored m uid pool), m).
Proof.
  rewrite (mapM_read _ (fun r => Ok (r, est m uid r))) by reflexivity.
  f_equal. unfold scored. induction pool as [|r l IH]; [reflexivity|].
  simpl. now rewrite IH.
Qed.

Lemma comprehension_unseen (seen : list RawId) (l : list nat) (raws : list RawId)
    (m : Model) :
  res_mapM (to_raw_iid (trainset m)) l = Ok raws ->
  comprehension_if
    (fun inner_id =>
       r <- trainset_to_raw_iid inner_id ;; ret (negb (set_mem r seen)))
    trainset_to_raw_iid l m
  = (Ok (filter (fun r => negb (set_mem r seen)) raws), m).
Proof.
  revert raws. induction l as [|i l IH]; intros raws H.
  - now injection H as <-.
  - apply res_mapM_cons in H as (r & rs & Hi & Hl & ->).
    cbn [comprehension_if filter].
    unfold bind at 1. unfold bind at 1. unfold trainset_to_raw_iid at 1.
    rewrite Hi. cbn [ret].
    destruct (negb (set_mem r seen)).
    + unfold bind at 1. unfold trainset_to_raw_iid at 1. rewrite Hi.
      unfold bind at 1. rewrite (IH rs Hl). reflexivity.
    + now apply IH.
Qed.

Lemma popularity_same (m m' : Model) (i : nat) :
  same_reads m m' -> popularity (trainset m') i = popularity (trainset m) i.
Proof. intros (_ & _ & _ & _ & _ & H). unfold popularity. now rewrite H. Qed.

Lemma dict_comprehension_run (pop : nat -> nat) (l : list nat) :
  forall (raws : list RawId) (acc : list (RawId * nat)) (m : Model),
    (forall i, popularity (trainset m) i = pop i) ->
    res_mapM (to_raw_iid (trainset m)) l = Ok raws ->
    exists m',
      dict_comprehension
        (fun inner_id =>
           k <- trainset_to_raw_iid inner_id ;;
           v <- trainset_ir inner_id ;;
           ret (k, List.length v))
        l acc m
      = (Ok (popularity_dict pop l raws acc), m')
      /\ same_reads m m'
      /\ ((forall i, In i l -> dd_lookup i (ir (trainset m)) <> None) -> m' = m).
Proof.
  induction l as [|i l IH]; intros raws acc m Hpop H.
  - injection H as <-. exists m. repeat split.
  - apply res_mapM_cons in H as (r & rs & Hi & Hl & ->).
    destruct (trainset_ir_run i m) as (m1 & Hrun & Hsame & Hkeep).
    assert (Hraw : to_raw_iid (trainset m1) = to_raw_iid (trainset m))
      by apply Hsame.
    destruct (IH rs (dict_set r (pop i) acc) m1) as (m2 & Hrest & Hsame2 & Hkeep2).
    { intros j. rewrite (popularity_same m m1 j Hsame). apply Hpop. }
    { now rewrite Hraw. }
    exists m2. split; [|split].
    + cbn [dict_comprehension]. unfold bind at 1. unfold bind at 1.
      unfold trainset_to_raw_iid at 1. rewrite Hi.
      unfold bind at 1. rewrite Hrun. cbn [ret fst snd].
      fold (popularity (trainset m) i). rewrite Hpop. exact Hrest.
    + eapply same_reads_trans; eassumption.
    + intros Hin. assert (m1 = m) as -> by (apply Hkeep, Hin; now left).
      apply Hkeep2. intros j Hj. apply Hin. now right.
Qed.

Lemma set_mem_In (r : RawId) (s : list RawId) : set_mem r s = true <-> In r s.
Proof.
  unfold set_mem. rewrite existsb_exists. split.
  - intros (x & Hx & E). unfold RawId_eqb in E.
    destruct (RawId_eq_dec r x); [now subst | discriminate].
  - intros H. exists r. split; [exact H|]. unfold RawId_eqb.
    now destruct (RawId_eq_dec r r).
Qed.

Lemma set_mem_set_of_list (r : RawId) (l : list RawId) :
  set_mem r (set_of_list l) = set_mem r l.
Proof.
  apply eq_true_iff_eq. rewrite !set_mem_In. unfold set_of_list.
  apply nodup_In.
Qed.

Lemma bind_ok {A B : Type} (c : M A) (k : A -> M B) (m m' : Model) (a : A) :
  c m = (Ok a, m') -> bind c k m = k a m'.
Proof. unfold bind. now intros ->. Qed.

Lemma lookup_user_known (m : Model) (uid : PyVal) (u : nat) (seen : list RawId) :
  to_inner_uid (trainset m) uid = Ok u ->
  seen_ids (trainset m) u = Ok seen ->
  exists m', lookup_user uid m = (Ok (set_of_list seen, true), m')
             /\ same_reads m m'
             /\ (dd_lookup u (ur (trainset m)) <> None -> m' = m).
Proof.
  intros Hu Hseen.
  destruct (trainset_ur_run u m) as (m1 & Hrun & Hsame & Hkeep).
  exists m1. split; [|now split].
  unfold lookup_user, try_except.
  rewrite (bind_ok _ _ m m u) by (unfold trainset_to_inner_uid; now rewrite Hu).
  rewrite (bind_ok _ _ _ _ _ Hrun).
  unfold bind. rewrite mapM_rated.
  replace (to_raw_iid (trainset m1)) with (to_raw_iid (trainset m)) by (symmetry; apply Hsame).
  unfold seen_ids in Hseen. now rewrite Hseen.
Qed.

Lemma lookup_user_unknown (m : Model) (uid : PyVal) :
  unknown_user (trainset m) uid -> lookup_user uid m = (Ok ([], false), m).
Proof.
  intros (e & He & Hc). unfold lookup_user, try_except, bind, trainset_to_inner_uid.
  rewrite He, Hc. reflexivity.
Qed.

Lemma filter_unseen_set (seen raws : list RawId) :
  filter (fun r => negb (set_mem r (set_of_list seen))) raws
  = filter (fun r => negb (set_mem r seen)) raws.
Proof. apply filter_ext. intros r. now rewrite set_mem_set_of_list. Qed.

(** The known-user branch returns the cut of the personal ranking. *)
Lemma generate_recommendations_known (m : Model) (uid n ex : PyVal) (u : nat)
    (seen raws : list RawId) :
  to_inner_uid (trainset m) uid = Ok u ->
  seen_ids (trainset m) u = Ok seen ->
  item_ids (trainset m) = Ok raws ->
  exists m',
    generate_recommendations uid n ex m
    = (answer n (personal_ranking m uid (candidate_pool raws seen (py_truthy ex))) true, m')
    /\ same_reads m m'
    /\ (dd_lookup u (ur (trainset m)) <> None -> m' = m).
Proof.
  intros Hu Hseen Hraws.
  destruct (lookup_user_known m uid u seen Hu Hseen) as (m1 & Hrun & Hsame & Hkeep).
  exists m1. split; [|now split].
  destruct Hsame as (_ & _ & Hraw & Hest & _).
  unfold generate_recommendations.
  rewrite (bind_ok _ _ m m (seq 0 (n_items (trainset m)))) by reflexivity.
  rewrite (bind_ok _ _ _ _ _ Hrun).
  assert (Hpool :
    (if py_truthy ex then
       comprehension_if
         (fun inner_id =>
            r <- trainset_to_raw_iid inner_id ;;
            ret (negb (set_mem r (set_of_list seen))))
         trainset_to_raw_iid (seq 0 (n_items (trainset m)))
     else mapM trainset_to_raw_iid (seq 0 (n_items (trainset m)))) m1
    = (Ok (candidate_pool raws seen (py_truthy ex)), m1)).
  { unfold candidate_pool, item_ids in *. rewrite <- Hraw in Hraws.
    destruct (py_truthy ex).
    - rewrite (comprehension_unseen _ _ raws) by exact Hraws.
      now rewrite filter_unseen_set.
    - now rewrite mapM_to_raw_iid, Hraws. }
  rewrite (bind_ok _ _ _ _ _ Hpool).
  rewrite (bind_ok _ _ _ _ _ (mapM_predict uid _ m1)).
  unfold answer, personal_ranking, scored, bind, lift, ret. rewrite Hest.
  now destruct (py_slice_to n _).
Qed.

(** The unknown-user branch returns the cut of the dictionary of ratings
    counts, sorted. *)
Lemma generate_recommendations_unknown (m : Model) (uid n ex : PyVal)
    (raws : list RawId) :
  unknown_user (trainset m) uid ->
  item_ids (trainset m) = Ok raws ->
  exists m',
    generate_recommendations uid n ex m
    = (answer n
         (sort_desc Nat.ltb snd
            (popularity_dict (popularity (trainset m))
               (seq 0 (n_items (trainset m))) raws []))
         false, m')
    /\ same_reads m m'
    /\ ((forall i, (i < n_items (trainset m))%nat ->
         dd_lookup i (ir (trainset m)) <> None) -> m' = m).
Proof.
  intros Hu Hraws.
  destruct (dict_comprehension_run (popularity (trainset m))
              (seq 0 (n_items (trainset m))) raws [] m)
    as (m1 & Hrun & Hsame & Hkeep); [reflexivity | exact Hraws |].
  exists m1. split; [|split; [exact Hsame|]].
  - unfold generate_recommendations.
    rewrite (bind_ok _ _ m m (seq 0 (n_items (trainset m)))) by reflexivity.
    rewrite (bind_ok _ _ _ _ _ (lookup_user_unknown m uid Hu)).
    rewrite (bind_ok _ _ _ _ _ Hrun).
    unfold answer, bind, lift, ret. now destruct (py_slice_to n _).
  - intros Hin. apply Hkeep. intros i Hi. apply Hin.
    apply in_seq in Hi. lia.
Qed.

(** ** Slices, decorated sorts and the dictionary of ratings counts *)

Lemma slice_to_prefix {A : Type} (n : Z) (l : list A) :
  exists k, slice_to n l = firstn k l.
Proof. unfold slice_to. destruct (n <? 0); eexists; reflexivity. Qed.

Lemma slice_to_length {A : Type} (n : Z) (l : list A) :
  0 <= n -> List.length (slice_to n l) = Nat.min (Z.to_nat n) (List.length l).
Proof.
  intros H. unfold slice_to. destruct (Z.ltb_spec n 0); [lia|].
  apply length_firstn.
Qed.


Lemma slice_to_map {A B : Type} (f : A -> B) (n : Z) (l : list A) :
  slice_to n (map f l) = map f (slice_to n l).
Proof.
  unfold slice_to. rewrite length_map. destruct (n <? 0); apply firstn_map.
Qed.

Lemma slice_to_incl {A : Type} (n : Z) (l : list A) (x : A) :
  In x (slice_to n l) -> In x l.
Proof.
  destruct (slice_to_prefix n l) as (k & ->). intros H.
  rewrite <- (firstn_skipn k l). apply in_or_app. now left.
Qed.

Lemma firstn_NoDup {A : Type} (k : nat) (l : list A) : NoDup l -> NoDup (firstn k l).
Proof.
  intros H. rewrite <- (firstn_skipn k l) in H. now apply NoDup_app_remove_r in H.
Qed.

Lemma insert_desc_decorated {A K : Type} (ltb : K -> K -> bool) (f : A -> K)
    (x : A) (l : list A) :
  insert_desc ltb snd (x, f x) (map (fun r => (r, f r)) l)
  = map (fun r => (r, f r)) (insert_desc ltb f x l).
Proof.
  induction l as [|y r IH]; [reflexivity|].
  cbn [insert_desc map snd]. destruct (ltb (f x) (f y)); [|reflexivity].
  cbn [map]. now rewrite IH.
Qed.

(** Sorting the pairs [(item, score)] by score is sorting the items by their
    score. *)
Lemma sort_desc_decorated {A K : Type} (ltb : K -> K -> bool) (f : A -> K)
    (l : list A) :
  sort_desc ltb snd (map (fun r => (r, f r)) l)
  = map (fun r => (r, f r)) (sort_desc ltb f l).
Proof.
  induction l as [|x r IH]; [reflexivity|].
  cbn [map sort_desc fold_right]. fold (sort_desc ltb snd (map (fun r => (r, f r)) r)).
  rewrite IH. apply insert_desc_decorated.
Qed.

Lemma render_personal_ranking (m : Model) (uid : PyVal) (pool : list RawId) (n : Z) :
  render (slice_to n (personal_ranking m uid pool))
  = map py_str (slice_to n (ranked_ids m uid pool)).
Proof.
  unfold render, personal_ranking, scored, ranked_ids.
  rewrite sort_desc_decorated, slice_to_map, map_map. reflexivity.
Qed.

Lemma dict_set_fresh {V : Type} (k : RawId) (v : V) (d : list (RawId * V)) :
  ~ In k (map fst d) -> dict_set k v d = (d ++ [(k, v)])%list.
Proof.
  induction d as [|[k' v'] r IH]; simpl; intros H; [reflexivity|].
  unfold RawId_eqb. destruct (RawId_eq_dec k k') as [->|_].
  - exfalso. apply H. now left.
  - f_equal. apply IH. intros Hin. apply H. now right.
Qed.

Lemma popularity_dict_fresh (pop : nat -> nat) (l : list nat) :
  forall (raws : list RawId) (acc : list (RawId * nat)),
    List.length raws = List.length l ->
    NoDup (map fst acc ++ raws)%list ->
    popularity_dict pop l raws acc
    = (acc ++ map (fun p => (snd p, pop (fst p))) (combine l raws))%list.
Proof.
  unfold popularity_dict.
  induction l as [|i l IH]; intros raws acc Hlen Hnd.
  - simpl. now rewrite app_nil_r.
  - destruct raws as [|r rs]; [discriminate|]. cbn [combine fold_left map fst snd].
    rewrite dict_set_fresh.
    + rewrite IH.
      * now rewrite <- app_assoc.
      * simpl in Hlen. lia.
      * rewrite map_app. cbn [map fst]. rewrite <- app_assoc. exact Hnd.
    + intros Hin. apply NoDup_remove_2 in Hnd. apply Hnd, in_or_app. now left.
Qed.

Lemma popularity_dict_enumeration (t : Trainset) (raws : list RawId) :
  item_ids t = Ok raws -> NoDup raws ->
  popularity_dict (popularity t) (seq 0 (n_items t)) raws []
  = items_by_enumeration t raws.
Proof.
  intros Hraws Hnd. apply res_mapM_length in Hraws.
  now rewrite popularity_dict_fresh.
Qed.

Lemma items_by_enumeration_ids (t : Trainset) (raws : list RawId) :
  item_ids t = Ok raws -> map fst (items_by_enumeration t raws) = raws.
Proof.
  intros Hraws. apply res_mapM_length in Hraws.
  unfold items_by_enumeration. rewrite map_map. cbn [fst].
  rewrite <- (map_map snd (fun r => r)), map_id.
  revert Hraws. generalize (seq 0 (n_items t)). intros l. revert l.
  induction raws as [|r rs IH]; intros [|i l] H; try discriminate; [reflexivity|].
  simpl. f_equal. apply IH. simpl in H. lia.
Qed.

Lemma StronglySorted_weaken {A : Type} (R R' : A -> A -> Prop) (l : list A) :
  (forall a b, R a b -> R' a b) -> StronglySorted R l -> StronglySorted R' l.
Proof.
  intros HR. induction 1 as [|x l Hl IH Hx]; constructor; [exact IH|].
  eapply Forall_impl; [|exact Hx]. intros b. apply HR.
Qed.

Lemma NoDup_map_str (raws sel : list RawId) :
  str_injective_on raws -> (forall r, In r sel -> In r raws) -> NoDup sel ->
  NoDup (map py_str sel).
Proof.
  intros Hinj Hin Hnd. induction Hnd as [|x l Hx Hl IH]; simpl; constructor.
  - rewrite in_map_iff. intros (y & Hy & Hyl). apply Hx.
    assert (y = x) as <-; [|exact Hyl].
    apply Hinj; [apply Hin; now right | apply Hin; now left | exact Hy].
  - apply IH. intros r Hr. apply Hin. now right.
Qed.

Lemma str_of_Z_inj (a b : Z) : str_of_Z a = str_of_Z b -> a = b.
Proof.
  unfold str_of_Z. intros H.
  assert (Hs : Some (Z.to_int a) = Some (Z.to_int b))
    by (rewrite <- !NilEmpty.isi; now rewrite H).
  injection Hs as Hs. now apply DecimalZ.to_int_inj.
Qed.

(** Raw ids that are all integers, or all strings, are written differently
    by [str]. *)
Lemma str_injective_on_ints (raws : list RawId) :
  (forall r, In r raws -> exists z, r = RInt z) -> str_injective_on raws.
Proof.
  intros Hint a b Ha Hb. destruct (Hint a Ha) as (x & ->), (Hint b Hb) as (y & ->).
  cbn [py_str]. intros H. f_equal. now apply str_of_Z_inj.
Qed.

Lemma str_injective_on_strings (raws : list RawId) :
  (forall r, In r raws -> exists s, r = RStr s) -> str_injective_on raws.
Proof.
  intros Hstr a b Ha Hb. destruct (Hstr a Ha) as (x & ->), (Hstr b Hb) as (y & ->).
  cbn [py_str]. now intros ->.
Qed.

Lemma candidate_pool_In (raws seen : list RawId) (r : RawId) :
  In r (candidate_pool raws seen true) <-> In r raws /\ ~ In r seen.
Proof.
  unfold candidate_pool. rewrite filter_In, negb_true_iff.
  split; intros [H1 H2]; (split; [exact H1|]).
  - intros Hin. apply set_mem_In in Hin. congruence.
  - destruct (set_mem r seen) eqn:E; [|reflexivity].
    apply set_mem_In in E. contradiction.
Qed.

Lemma candidate_pool_incl (raws seen : list RawId) (ex : bool) (r : RawId) :
  In r (candidate_pool raws seen ex) -> In r raws.
Proof.
  destruct ex; [|trivial]. intros H. now apply candidate_pool_In in H.
Qed.

Lemma candidate_pool_NoDup (raws seen : list RawId) (ex : bool) :
  NoDup raws -> NoDup (candidate_pool raws seen ex).
Proof. destruct ex; [apply NoDup_filter | trivial]. Qed.

Lemma ranked_ids_perm (m : Model) (uid : PyVal) (pool : list RawId) :
  Permutation (ranked_ids m uid pool) pool.
Proof. apply sort_desc_perm. Qed.

Lemma ranked_ids_sorted (m : Model) (uid : PyVal) (pool : list RawId) :
  StronglySorted (fun a b => (est m uid b <= est m uid a)%Q) (ranked_ids m uid pool).
Proof.
  eapply StronglySorted_weaken;
    [|apply (sort_desc_sorted Qltb (est m uid) Qltb_asym Qltb_negtrans)].
  intros a b H. now apply Qltb_false_iff.
Qed.

Lemma ranked_ids_stable (m : Model) (uid : PyVal) (pool : list RawId) (q : Q) :
  filter (fun r => Qeq_bool (est m uid r) q) (ranked_ids m uid pool)
  = filter (fun r => Qeq_bool (est m uid r) q) pool.
Proof.
  rewrite <- !(filter_ext _ _ (same_key_Q (est m uid) q)).
  apply sort_desc_stable, Qltb_negtrans.
Qed.

Lemma popularity_ranking_perm (t : Trainset) (raws : list RawId) :
  Permutation (popularity_ranking t raws) (items_by_enumeration t raws).
Proof. apply sort_desc_perm. Qed.

Lemma popularity_ranking_sorted (t : Trainset) (raws : list RawId) :
  StronglySorted (fun a b : RawId * nat => (snd b <= snd a)%nat)
    (popularity_ranking t raws).
Proof.
  eapply StronglySorted_weaken;
    [|apply (sort_desc_sorted Nat.ltb snd Nat_ltb_asym Nat_ltb_negtrans)].
  intros a b H. now apply Nat.ltb_ge.
Qed.

Lemma popularity_ranking_stable (t : Trainset) (raws : list RawId) (k : nat) :
  filter (fun p : RawId * nat => Nat.eqb (snd p) k) (popularity_ranking t raws)
  = filter (fun p : RawId * nat => Nat.eqb (snd p) k) (items_by_enumeration t raws).
Proof.
  rewrite <- !(filter_ext _ _ (same_key_nat snd k)).
  apply sort_desc_stable, Nat_ltb_negtrans.
Qed.

(** What the two branches return for an integer count. *)
Lemma known_result (m : Model) (uid ex : PyVal) (count : Z) (seen raws : list RawId) :
  known_user (trainset m) uid seen ->
  item_ids (trainset m) = Ok raws ->
  fst (generate_recommendations uid (PInt count) ex m)
  = Ok (map py_str
          (slice_to count
             (ranked_ids m uid (candidate_pool raws seen (py_truthy ex)))), true).
Proof.
  intros (u & Hu & Hseen) Hraws.
  destruct (generate_recommendations_known m uid (PInt count) ex u seen raws Hu Hseen Hraws)
    as (m' & -> & _).
  cbn [fst answer py_slice_to]. now rewrite render_personal_ranking.
Qed.

Lemma unknown_result (m : Model) (uid ex : PyVal) (count : Z) (raws : list RawId) :
  unknown_user (trainset m) uid ->
  item_ids (trainset m) = Ok raws ->
  NoDup raws ->
  fst (generate_recommendations uid (PInt count) ex m)
  = Ok (render (slice_to count (popularity_ranking (trainset m) raws)), false).
Proof.
  intros Hu Hraws Hnd.
  destruct (generate_recommendations_unknown m uid (PInt count) ex raws Hu Hraws)
    as (m' & -> & _).
  cbn [fst answer py_slice_to]. now rewrite popularity_dict_enumeration.
Qed.

Ltac solve_NoDup :=
  repeat (constructor; [simpl; intuition discriminate|]); constructor.

(** ** The recommender: known and unknown users *)



(** C2. For an unknown user the flag is [False] and the result is the [str]
    of the [count] items with the most ratings in the training data: the
    items, each with its number of ratings, split into the returned ones
    [top] and the rest, no item of the rest has more ratings than a returned
    one, and the list returned is the [str] of the raw ids of [top], in the
    order of [top].  The result is the same for every value of
    [exclude_seen]. *)
Theorem unknown_user_most_popular (m : Model) (uid : PyVal) (count : Z)
    (raws : list RawId) :
  unknown_user (trainset m) uid ->
  item_ids (trainset m) = Ok raws ->
  NoDup raws ->
  0 <= count ->
  exists top rest : list (RawId * nat),
    Permutation (top ++ rest)%list (items_by_enumeration (trainset m) raws)
    /\ List.length top = Nat.min (Z.to_nat count) (List.length raws)
    /\ (forall a b, In a top -> In b rest -> (snd b <= snd a)%nat)
    /\ forall ex : PyVal,
         fst (generate_recommendations uid (PInt count) ex m)
         = Ok (map py_str (map fst top), false).
Proof.
  intros Hu Hraws Hnd Hcount.
  set (ranking := popularity_ranking (trainset m) raws).
  destruct (slice_to_prefix count ranking) as (k & Hk).
  exists (slice_to count ranking), (skipn k ranking). repeat split.
  - rewrite Hk, firstn_skipn. apply popularity_ranking_perm.
  - rewrite slice_to_length by exact Hcount. f_equal. unfold ranking.
    rewrite (Permutation_length (popularity_ranking_perm _ _)).
    unfold items_by_enumeration. rewrite length_map, length_combine, length_seq.
    apply res_mapM_length in Hraws. rewrite length_seq in Hraws. lia.
  - intros a b Ha Hb. rewrite Hk in Ha.
    assert (H : not_below Nat.ltb snd a b).
    { apply (sorted_split_top Nat.ltb snd (firstn k ranking) (skipn k ranking));
        [|exact Ha | exact Hb].
      rewrite firstn_skipn.
      apply (sort_desc_sorted Nat.ltb snd Nat_ltb_asym Nat_ltb_negtrans). }
    now apply Nat.ltb_ge.
  - intros ex. rewrite (unknown_result m uid ex count raws Hu Hraws Hnd).
    fold ranking. unfold render. now rewrite map_map.
Qed.

Lemma unknown_user_most_popular_witness :
  unknown_user (trainset model_abc) (PInt 999)
  /\ item_ids (trainset model_abc) = Ok raws_abc
  /\ NoDup raws_abc
  /\ exists top rest : list (RawId * nat),
       Permutation (top ++ rest)%list (items_by_enumeration (trainset model_abc) raws_abc)
       /\ List.length top = Nat.min (Z.to_nat 2) (List.length raws_abc)
       /\ (forall a b, In a top -> In b rest -> (snd b <= snd a)%nat)
       /\ forall ex : PyVal,
            fst (generate_recommendations (PInt 999) (PInt 2) ex model_abc)
            = Ok (map py_str (map fst top), false).
Proof.
  assert (Hu : unknown_user (trainset model_abc) (PInt 999))
    by (eexists; split; reflexivity).
  assert (Hnd : NoDup raws_abc) by (unfold raws_abc; solve_NoDup).
  split; [exact Hu|]. split; [reflexivity|]. split; [exact Hnd|].
  apply (unknown_user_most_popular model_abc (PInt 999) 2 raws_abc);
    [exact Hu | reflexivity | exact Hnd | lia].
Defined.

(** C3, as amended.  For a count that is not negative and a model whose items
    have distinct raw ids, the result of either branch holds at most [count]
    identifiers and at most as many as there are candidates; the items chosen
    are distinct, and the strings returned for them are distinct when [str]
    writes distinct raw ids of the model differently. *)
Theorem result_bounded_and_distinct (m : Model) (uid ex : PyVal) (count : Z)
    (raws : list RawId) :
  0 <= count ->
  item_ids (trainset m) = Ok raws ->
  NoDup raws ->
  (forall seen, known_user (trainset m) uid seen ->
     exists sel : list RawId,
       fst (generate_recommendations uid (PInt count) ex m) = Ok (map py_str sel, true)
       /\ Z.of_nat (List.length sel) <= count
       /\ (List.length sel <= List.length (candidate_pool raws seen (py_truthy ex)))%nat
       /\ NoDup sel
       /\ (str_injective_on raws -> NoDup (map py_str sel)))
  /\ (unknown_user (trainset m) uid ->
     exists sel : list RawId,
       fst (generate_recommendations uid (PInt count) ex m) = Ok (map py_str sel, false)
       /\ Z.of_nat (List.length sel) <= count
       /\ (List.length sel <= List.length raws)%nat
       /\ NoDup sel
       /\ (str_injective_on raws -> NoDup (map py_str sel))).
Proof.
  intros Hcount Hraws Hnd. split.
  - intros seen Hknown.
    set (pool := candidate_pool raws seen (py_truthy ex)).
    assert (Hperm := ranked_ids_perm m uid pool).
    assert (Hsel : NoDup (slice_to count (ranked_ids m uid pool))).
    { destruct (slice_to_prefix count (ranked_ids m uid pool)) as (k & ->).
      apply firstn_NoDup. eapply Permutation_NoDup;
        [apply Permutation_sym, Hperm | now apply candidate_pool_NoDup]. }
    exists (slice_to count (ranked_ids m uid pool)). repeat split.
    + now apply known_result.
    + rewrite slice_to_length by exact Hcount. lia.
    + rewrite slice_to_length by exact Hcount.
      rewrite (Permutation_length Hperm). lia.
    + exact Hsel.
    + intros Hinj. apply (NoDup_map_str raws); [exact Hinj | | exact Hsel].
      intros r Hr. apply (candidate_pool_incl raws seen (py_truthy ex)).
      eapply Permutation_in; [exact Hperm|]. eapply slice_to_incl, Hr.
  - intros Hu.
    set (ranking := popularity_ranking (trainset m) raws).
    assert (Hperm : Permutation (map fst ranking) raws).
    { rewrite <- (items_by_enumeration_ids (trainset m) raws Hraws).
      apply Permutation_map, popularity_ranking_perm. }
    assert (Hsel : NoDup (slice_to count (map fst ranking))).
    { destruct (slice_to_prefix count (map fst ranking)) as (k & ->).
      apply firstn_NoDup. eapply Permutation_NoDup;
        [apply Permutation_sym, Hperm | exact Hnd]. }
    exists (slice_to count (map fst ranking)). repeat split.
    + rewrite (unknown_result m uid ex count raws Hu Hraws Hnd).
      unfold render. fold ranking. now rewrite slice_to_map, map_map.
    + rewrite slice_to_length by exact Hcount. lia.
    + rewrite slice_to_length by exact Hcount.
      rewrite (Permutation_length Hperm). lia.
    + exact Hsel.
    + intros Hinj. apply (NoDup_map_str raws); [exact Hinj | | exact Hsel].
      intros r Hr. eapply Permutation_in; [exact Hperm|]. eapply slice_to_incl, Hr.
Qed.

Lemma result_bounded_and_distinct_witness :
  item_ids (trainset model_abc) = Ok raws_abc
  /\ NoDup raws_abc
  /\ known_user (trainset model_abc) (PInt 1) [RStr "A"]
  /\ str_injective_on raws_abc
  /\ exists sel : list RawId,
       fst (generate_recommendations (PInt 1) (PInt 1) (PBool true) model_abc)
       = Ok (map py_str sel, true)
       /\ Z.of_nat (List.length sel) <= 1
       /\ (List.length sel
           <= List.length (candidate_pool raws_abc [RStr "A"] (py_truthy (PBool true))))%nat
       /\ NoDup sel
       /\ NoDup (map py_str sel).
Proof.
  assert (Hnd : NoDup raws_abc) by (unfold raws_abc; solve_NoDup).
  assert (Hk : known_user (trainset model_abc) (PInt 1) [RStr "A"])
    by (exists 0%nat; split; reflexivity).
  assert (Hinj : str_injective_on raws_abc).
  { intros a b Ha Hb. simpl in Ha, Hb.
    repeat (destruct Ha as [<-|Ha]; [|]); try contradiction;
      repeat (destruct Hb as [<-|Hb]; [|]); try contradiction;
      simpl; intros H; congruence. }
  split; [reflexivity|]. split; [exact Hnd|]. split; [exact Hk|]. split; [exact Hinj|].
  destruct (result_bounded_and_distinct model_abc (PInt 1) (PBool true) 1 raws_abc)
    as [Hknown _]; [lia | reflexivity | exact Hnd |].
  destruct (Hknown [RStr "A"] Hk) as (sel & H1 & H2 & H3 & H4 & H5).
  exists sel. repeat split; try assumption. now apply H5.
Defined.

(** C3, as stated, fails: a model whose two items have the raw ids [1] and
    ["1"] translates its items injectively, and the result for an unknown
    user holds the same string twice. *)
Lemma duplicate_identifier_strings :
  item_ids (trainset model_mixed) = Ok [RInt 1; RStr "1"]
  /\ NoDup [RInt 1; RStr "1"]
  /\ unknown_user (trainset model_mixed) (PInt 999)
  /\ fst (generate_recommendations (PInt 999) (PInt 2) (PBool true) model_mixed)
     = Ok (["1"; "1"], false)
  /\ ~ NoDup ["1"; "1"].
Proof.
  split; [reflexivity|]. split; [solve_NoDup|].
  split; [eexists; split; reflexivity|]. split; [reflexivity|].
  intros H. inversion H as [|x l Hx _]; subst. apply Hx. now left.
Qed.

(** C4. Both rankings are arrangements of the candidates by descending
    score in which candidates of equal score keep the order of the model's
    enumeration: the candidates of a known user by the estimate of the
    model, the items offered to an unknown user by their number of ratings.
    The result is the [str] of the first [count] of the ranking. *)
Theorem rankings_descending_and_stable (m : Model) (uid ex : PyVal) (count : Z)
    (raws : list RawId) :
  item_ids (trainset m) = Ok raws ->
  (forall seen, known_user (trainset m) uid seen ->
     exists ranked : list RawId,
       fst (generate_recommendations uid (PInt count) ex m)
       = Ok (map py_str (slice_to count ranked), true)
       /\ Permutation ranked (candidate_pool raws seen (py_truthy ex))
       /\ StronglySorted (fun a b => (est m uid b <= est m uid a)%Q) ranked
       /\ forall q : Q,
            filter (fun r => Qeq_bool (est m uid r) q) ranked
            = filter (fun r => Qeq_bool (est m uid r) q)
                (candidate_pool raws seen (py_truthy ex)))
  /\ (unknown_user (trainset m) uid -> NoDup raws ->
     exists ranked : list (RawId * nat),
       fst (generate_recommendations uid (PInt count) ex m)
       = Ok (render (slice_to count ranked), false)
       /\ Permutation ranked (items_by_enumeration (trainset m) raws)
       /\ StronglySorted (fun a b => (snd b <= snd a)%nat) ranked
       /\ forall k : nat,
            filter (fun p => Nat.eqb (snd p) k) ranked
            = filter (fun p => Nat.eqb (snd p) k)
                (items_by_enumeration (trainset m) raws)).
Proof.
  intros Hraws. split.
  - intros seen Hknown.
    exists (ranked_ids m uid (candidate_pool raws seen (py_truthy ex))).
    split; [now apply known_result|].
    split; [apply ranked_ids_perm|].
    split; [apply ranked_ids_sorted|]. intros q. apply ranked_ids_stable.
  - intros Hu Hnd. exists (popularity_ranking (trainset m) raws).
    split; [now apply unknown_result|].
    split; [apply popularity_ranking_perm|].
    split; [apply popularity_ranking_sorted|]. intros k. apply popularity_ranking_stable.
Qed.

Lemma rankings_descending_and_stable_witness :
  item_ids (trainset model_abc) = Ok raws_abc
  /\ unknown_user (trainset model_abc) (PInt 999)
  /\ NoDup raws_abc
  /\ exists ranked : list (RawId * nat),
       fst (generate_recommendations (PInt 999) (PInt 2) (PBool false) model_abc)
       = Ok (render (slice_to 2 ranked), false)
       /\ Permutation ranked (items_by_enumeration (trainset model_abc) raws_abc)
       /\ StronglySorted (fun a b => (snd b <= snd a)%nat) ranked
       /\ forall k : nat,
            filter (fun p => Nat.eqb (snd p) k) ranked
            = filter (fun p => Nat.eqb (snd p) k)
                (items_by_enumeration (trainset model_abc) raws_abc).
Proof.
  assert (Hu : unknown_user (trainset model_abc) (PInt 999))
    by (eexists; split; reflexivity).
  assert (Hnd : NoDup raws_abc) by (unfold raws_abc; solve_NoDup).
  split; [reflexivity|]. split; [exact Hu|]. split; [exact Hnd|].
  destruct (rankings_descending_and_stable model_abc (PInt 999) (PBool false) 2 raws_abc)
    as [_ Hunknown]; [reflexivity|].
  exact (Hunknown Hu Hnd).
Defined.


(** ** No effect on the model *)

Lemma same_reads_sym (m m' : Model) : same_reads m m' -> same_reads m' m.
Proof.
  intros (A1 & A2 & A3 & A4 & A5 & A6). repeat split; congruence.
Qed.

Lemma reads_only_ret {A : Type} (a : A) : reads_only (ret a).
Proof. split; intros; [apply same_reads_refl | reflexivity]. Qed.

Lemma reads_only_lift {A : Type} (r : Res A) : reads_only (lift r).
Proof. split; intros; [apply same_reads_refl | reflexivity]. Qed.

Lemma reads_only_bind {A B : Type} (c : M A) (k : A -> M B) :
  reads_only c -> (forall a, reads_only (k a)) -> reads_only (bind c k).
Proof.
  intros [Hc1 Hc2] Hk. split.
  - intros m. unfold bind. specialize (Hc1 m). destruct (c m) as [[a|e] m1]; [|exact Hc1].
    eapply same_reads_trans; [exact Hc1 | apply (proj1 (Hk a))].
  - intros m m' Hsame. unfold bind.
    assert (H1 := Hc1 m). assert (H1' := Hc1 m'). assert (H2 := Hc2 m m' Hsame).
    destruct (c m) as [r m1], (c m') as [r' m1']. cbn [fst snd] in *. subst r'.
    destruct r as [a|e]; [|reflexivity].
    apply (proj2 (Hk a)). eapply same_reads_trans; [apply same_reads_sym, H1|].
    exact (same_reads_trans _ _ _ Hsame H1').
Qed.

Lemma reads_only_try_except {A : Type} (cls : ExnClass) (body handler : M A) :
  reads_only body -> reads_only handler -> reads_only (try_except cls body handler).
Proof.
  intros [Hb1 Hb2] [Hh1 Hh2]. split.
  - intros m. unfold try_except. specialize (Hb1 m).
    destruct (body m) as [[a|e] m1]; [exact Hb1|].
    destruct (ExnClass_eqb (exn_class e) cls); [|exact Hb1].
    eapply same_reads_trans; [exact Hb1 | apply Hh1].
  - intros m m' Hsame. unfold try_except.
    assert (H1 := Hb1 m). assert (H1' := Hb1 m'). assert (H2 := Hb2 m m' Hsame).
    destruct (body m) as [r m1], (body m') as [r' m1']. cbn [fst snd] in *. subst r'.
    destruct r as [a|e]; [reflexivity|].
    destruct (ExnClass_eqb (exn_class e) cls); [|reflexivity].
    apply Hh2. eapply same_reads_trans; [apply same_reads_sym, H1|].
    exact (same_reads_trans _ _ _ Hsame H1').
Qed.

Lemma reads_only_all_items : reads_only trainset_all_items.
Proof.
  split; [intros; apply same_reads_refl|].
  intros m m' (H & _). unfold trainset_all_items. cbn [fst]. now rewrite H.
Qed.

Lemma reads_only_to_inner_uid (ruid : PyVal) : reads_only (trainset_to_inner_uid ruid).
Proof.
  split; [intros; apply same_reads_refl|].
  intros m m' (_ & H & _). unfold trainset_to_inner_uid. cbn [fst]. now rewrite H.
Qed.

Lemma reads_only_to_raw_iid (iiid : nat) : reads_only (trainset_to_raw_iid iiid).
Proof.
  split; [intros; apply same_reads_refl|].
  intros m m' (_ & _ & H & _). unfold trainset_to_raw_iid. cbn [fst]. now rewrite H.
Qed.

Lemma reads_only_predict (uid : PyVal) (iid : RawId) : reads_only (model_predict uid iid).
Proof.
  split; [intros; apply same_reads_refl|].
  intros m m' (_ & _ & _ & H & _). unfold model_predict. cbn [fst]. now rewrite H.
Qed.

Lemma reads_only_ur (u : nat) : reads_only (trainset_ur u).
Proof.
  split.
  - intros m. destruct (trainset_ur_run u m) as (m1 & -> & H & _). exact H.
  - intros m m' (_ & _ & _ & _ & H & _).
    destruct (trainset_ur_run u m) as (m1 & -> & _).
    destruct (trainset_ur_run u m') as (m1' & -> & _). cbn [fst]. now rewrite H.
Qed.

Lemma reads_only_ir (i : nat) : reads_only (trainset_ir i).
Proof.
  split.
  - intros m. destruct (trainset_ir_run i m) as (m1 & -> & H & _). exact H.
  - intros m m' (_ & _ & _ & _ & _ & H).
    destruct (trainset_ir_run i m) as (m1 & -> & _).
    destruct (trainset_ir_run i m') as (m1' & -> & _). cbn [fst]. now rewrite H.
Qed.

Lemma reads_only_mapM {A B : Type} (f : A -> M B) (l : list A) :
  (forall x, reads_only (f x)) -> reads_only (mapM f l).
Proof.
  intros Hf. induction l as [|x r IH]; cbn [mapM]; [apply reads_only_ret|].
  apply reads_only_bind; [apply Hf|]. intros y.
  apply reads_only_bind; [exact IH|]. intros ys. apply reads_only_ret.
Qed.

Lemma reads_only_comprehension_if {A B : Type} (c : A -> M bool) (e : A -> M B)
    (l : list A) :
  (forall x, reads_only (c x)) -> (forall x, reads_only (e x)) ->
  reads_only (comprehension_if c e l).
Proof.
  intros Hc He. induction l as [|x r IH]; cbn [comprehension_if]; [apply reads_only_ret|].
  apply reads_only_bind; [apply Hc|]. intros [|]; [|exact IH].
  apply reads_only_bind; [apply He|]. intros y.
  apply reads_only_bind; [exact IH|]. intros ys. apply reads_only_ret.
Qed.

Lemma reads_only_dict_comprehension {A V : Type} (kv : A -> M (RawId * V))
    (l : list A) (acc : list (RawId * V)) :
  (forall x, reads_only (kv x)) -> reads_only (dict_comprehension kv l acc).
Proof.
  intros Hkv. revert acc.
  induction l as [|x r IH]; intros acc; cbn [dict_comprehension]; [apply reads_only_ret|].
  apply reads_only_bind; [apply Hkv|]. intros p. apply IH.
Qed.

Lemma reads_only_lookup_user (uid : PyVal) : reads_only (lookup_user uid).
Proof.
  apply reads_only_try_except; [|apply reads_only_ret].
  apply reads_only_bind; [apply reads_only_to_inner_uid|]. intros u.
  apply reads_only_bind; [apply reads_only_ur|]. intros rated.
  apply reads_only_bind; [|intros raws; apply reads_only_ret].
  apply reads_only_mapM. intros p. apply reads_only_to_raw_iid.
Qed.

Lemma reads_only_generate_recommendations (uid n ex : PyVal) :
  reads_only (generate_recommendations uid n ex).
Proof.
  unfold generate_recommendations.
  apply reads_only_bind; [apply reads_only_all_items|]. intros all_items.
  apply reads_only_bind; [apply reads_only_lookup_user|]. intros [seen_items [|]].
  - apply reads_only_bind.
    + destruct (py_truthy ex).
      * apply reads_only_comprehension_if; [|apply reads_only_to_raw_iid].
        intros i. apply reads_only_bind; [apply reads_only_to_raw_iid|].
        intros r. apply reads_only_ret.
      * apply reads_only_mapM, reads_only_to_raw_iid.
    + intros candidate_items. apply reads_only_bind.
      * apply reads_only_mapM. intros r.
        apply reads_only_bind; [apply reads_only_predict|]. intros e. apply reads_only_ret.
      * intros predictions. apply reads_only_bind; [apply reads_only_lift|].
        intros top. apply reads_only_ret.
  - apply reads_only_bind.
    + apply reads_only_dict_comprehension. intros i.
      apply reads_only_bind; [apply reads_only_to_raw_iid|]. intros k.
      apply reads_only_bind; [apply reads_only_ir|]. intros v. apply reads_only_ret.
    + intros item_popularity. apply reads_only_bind; [apply reads_only_lift|].
      intros top. apply reads_only_ret.
Qed.

Lemma after_calls_same_reads (calls : list (PyVal * PyVal * PyVal)) (m : Model) :
  same_reads m (after_calls calls m).
Proof.
  revert m. induction calls as [|[[uid n] ex] r IH]; intros m; cbn [after_calls].
  - apply same_reads_refl.
  - eapply same_reads_trans; [|apply IH].
    apply (proj1 (reads_only_generate_recommendations uid n ex)).
Qed.

Lemma keeps_bind {A B : Type} (c : M A) (k : A -> M B) (m : Model) :
  keeps c m -> (forall a, fst (c m) = Ok a -> keeps (k a) m) -> keeps (bind c k) m.
Proof.
  unfold keeps, bind. intros Hc Hk. destruct (c m) as [[a|e] m1]; cbn [fst snd] in *.
  - subst m1. now apply Hk.
  - exact Hc.
Qed.

Lemma keeps_try_except {A : Type} (cls : ExnClass) (body handler : M A) (m : Model) :
  keeps body m -> keeps handler m -> keeps (try_except cls body handler) m.
Proof.
  unfold keeps, try_except. intros Hb Hh.
  destruct (body m) as [[a|e] m1]; cbn [snd] in *; [exact Hb|].
  destruct (ExnClass_eqb (exn_class e) cls); [now subst m1 | exact Hb].
Qed.

Lemma keeps_mapM {A B : Type} (f : A -> M B) (l : list A) (m : Model) :
  (forall x, keeps (f x) m) -> keeps (mapM f l) m.
Proof.
  intros Hf. induction l as [|x r IH]; cbn [mapM]; [reflexivity|].
  apply keeps_bind; [apply Hf|]. intros y _.
  apply keeps_bind; [exact IH|]. reflexivity.
Qed.

Lemma keeps_comprehension_if {A B : Type} (c : A -> M bool) (e : A -> M B)
    (l : list A) (m : Model) :
  (forall x, keeps (c x) m) -> (forall x, keeps (e x) m) ->
  keeps (comprehension_if c e l) m.
Proof.
  intros Hc He. induction l as [|x r IH]; cbn [comprehension_if]; [reflexivity|].
  apply keeps_bind; [apply Hc|]. intros [|] _; [|exact IH].
  apply keeps_bind; [apply He|]. intros y _.
  apply keeps_bind; [exact IH|]. reflexivity.
Qed.

Lemma keeps_dict_comprehension {A V : Type} (kv : A -> M (RawId * V)) (l : list A)
    (acc : list (RawId * V)) (m : Model) :
  (forall x, In x l -> keeps (kv x) m) -> keeps (dict_comprehension kv l acc) m.
Proof.
  revert acc. induction l as [|x r IH]; intros acc Hkv; cbn [dict_comprehension];
    [reflexivity|].
  apply keeps_bind; [apply Hkv; now left|]. intros p _.
  apply IH. intros y Hy. apply Hkv. now right.
Qed.

Lemma keeps_ur (u : nat) (m : Model) :
  dd_lookup u (ur (trainset m)) <> None -> keeps (trainset_ur u) m.
Proof.
  intros H. unfold keeps. destruct (trainset_ur_run u m) as (m1 & -> & _ & Hk).
  now apply Hk.
Qed.

Lemma keeps_ir (i : nat) (m : Model) :
  dd_lookup i (ir (trainset m)) <> None -> keeps (trainset_ir i) m.
Proof.
  intros H. unfold keeps. destruct (trainset_ir_run i m) as (m1 & -> & _ & Hk).
  now apply Hk.
Qed.

Lemma keeps_generate_recommendations (m : Model) (uid n ex : PyVal) :
  entries_present (trainset m) uid -> keeps (generate_recommendations uid n ex) m.
Proof.
  intros [Hir Hur]. unfold generate_recommendations.
  apply keeps_bind; [reflexivity|]. intros all_items [= <-].
  apply keeps_bind.
  { apply keeps_try_except; [|reflexivity].
    apply keeps_bind; [reflexivity|]. intros u Hu.
    apply keeps_bind; [apply keeps_ur, Hur, Hu|]. intros rated _.
    apply keeps_bind; [|reflexivity]. apply keeps_mapM. reflexivity. }
  intros [seen_items [|]] _.
  - apply keeps_bind.
    { destruct (py_truthy ex).
      - apply keeps_comprehension_if; [|reflexivity].
        intros i. apply keeps_bind; reflexivity.
      - apply keeps_mapM. reflexivity. }
    intros candidate_items _. apply keeps_bind; [apply keeps_mapM; reflexivity|].
    intros predictions _. apply keeps_bind; reflexivity.
  - apply keeps_bind.
    { apply keeps_dict_comprehension. intros i Hi.
      apply keeps_bind; [reflexivity|]. intros k _.
      apply keeps_bind; [|reflexivity]. apply keeps_ir, Hir.
      apply in_seq in Hi. lia. }
    intros item_popularity _. apply keeps_bind; reflexivity.
Qed.

(** C7. The result of [generate_recommendations] is fixed by its arguments
    and the model as loaded: whatever calls were served before, the same
    arguments give the same items and flag.  A call hands the model back
    unchanged, given that the rating dictionaries hold an entry for each
    item and for the user, as they do for the ids the trainset knows. *)
Theorem generate_recommendations_pure (m : Model) (uid n ex : PyVal) :
  (forall calls,
     fst (generate_recommendations uid n ex (after_calls calls m))
     = fst (generate_recommendations uid n ex m))
  /\ (entries_present (trainset m) uid ->
      snd (generate_recommendations uid n ex m) = m).
Proof.
  split.
  - intros calls. apply (proj2 (reads_only_generate_recommendations uid n ex)).
    apply after_calls_same_reads.
  - apply keeps_generate_recommendations.
Qed.

Lemma generate_recommendations_pure_witness :
  entries_present (trainset model_abc) (PInt 1)
  /\ (forall calls,
        fst (generate_recommendations (PInt 1) (PInt 2) (PBool true)
               (after_calls calls model_abc))
        = fst (generate_recommendations (PInt 1) (PInt 2) (PBool true) model_abc))
  /\ snd (generate_recommendations (PInt 1) (PInt 2) (PBool true) model_abc) = model_abc.
Proof.
  assert (He : entries_present (trainset model_abc) (PInt 1)).
  { split.
    - intros i Hi. simpl in Hi.
      destruct i as [|[|[|i]]]; simpl; try discriminate. lia.
    - simpl. intros u [= <-]. discriminate. }
  split; [exact He|].
  destruct (generate_recommendations_pure model_abc (PInt 1) (PInt 2) (PBool true))
    as [Hsame Hkeep].
  split; [exact Hsame | exact (Hkeep He)].
Defined.

(** ** Parameter extraction *)

Lemma Qltb_inject_Z (a b : Z) : Qltb (inject_Z a) (inject_Z b) = (a <? b).
Proof.
  unfold Qltb, Qle_bool, inject_Z. cbn [Qnum Qden]. rewrite !Z.mul_1_r.
  destruct (Z.leb_spec b a), (Z.ltb_spec a b); simpl; try reflexivity; lia.
Qed.

Lemma py_min_int (z : Z) : py_min (PInt z) (PInt 100) = Ok (PInt (Z.min z 100)).
Proof.
  unfold py_min, py_lt. cbn [number num_val option_map Num_ltb].
  rewrite Qltb_inject_Z.
  destruct (Z.ltb_spec 100 z); do 2 f_equal; lia.
Qed.

Lemma py_max_int (z : Z) : py_max (PInt 1) (PInt z) = Ok (PInt (Z.max 1 z)).
Proof.
  unfold py_max, py_gt. cbn [number num_val option_map Num_ltb].
  rewrite Qltb_inject_Z.
  destruct (Z.ltb_spec 1 z); do 2 f_equal; lia.
Qed.

(** [int] raises [OverflowError] on an infinite float only; its other
    exceptions are the two that the extraction handles. *)
Lemma py_int_raise_class (v : PyVal) (e : Exn) :
  py_int v = Raise e ->
  (exists negative, v = PInf negative)
  \/ exn_class e = TypeError \/ exn_class e = ValueError.
Proof.
  destruct v; simpl; try discriminate;
    try (intros [= <-]; right; now left); try (intros [= <-]; right; now right).
  - intros _. left. now eexists.
  - destruct (int_of_string s); [discriminate|]. intros [= <-]. right. now right.
Qed.

Lemma int_if_possible_inf (negative : bool) :
  exists e, int_if_possible (PInf negative) = Raise e /\ exn_class e = OverflowError.
Proof. eexists. split; reflexivity. Qed.

Lemma int_if_possible_coerced (v : PyVal) :
  (forall negative, v <> PInf negative) ->
  int_if_possible v = Ok (coerced v).
Proof.
  intros Hfin. unfold coerced, int_if_possible.
  destruct (py_int v) as [z|e] eqn:E; [reflexivity|].
  destruct (py_int_raise_class v e E) as [(negative & ->) | [-> | ->]];
    [now destruct (Hfin negative) | reflexivity | reflexivity].
Qed.


Lemma params_get_finite (req : HttpRequest) (k : string) (negative : bool) :
  params_get req k <> PInf negative.
Proof. unfold params_get. now destruct (assoc_get k (params req)). Qed.

Lemma lower_is_true_query (req : HttpRequest) :
  lower_is_true (params_get_default req "exclude_seen" (PStr "true"))
  = Ok (PBool (query_exclude_seen req)).
Proof.
  unfold params_get_default, query_exclude_seen.
  now destruct (assoc_get "exclude_seen" (params req)).
Qed.

(** An unreadable count in the query string stops the extraction, whatever
    else the request holds. *)
Lemma extract_query_num_raises (req : HttpRequest) (e : Exn) :
  query_num req = Raise e -> extract_request_params req = Raise e.
Proof.
  unfold extract_request_params, query_num. now intros ->.
Qed.

Lemma extract_from_query (req : HttpRequest) (q : Z) :
  param_source req = FromQuery ->
  query_num req = Ok q ->
  extract_request_params req
  = Ok (coerced (params_get req "user_id"), PInt (Z.max 1 (Z.min q 100)),
        PBool (query_exclude_seen req)).
Proof.
  unfold param_source, extract_request_params, query_num. intros Hsrc ->.
  cbn [res_bind]. rewrite lower_is_true_query. cbn [res_bind].
  assert (Hkeep :
    (if negb (py_truthy (params_get req "user_id")) then
       or_keep_on_ValueError
         (let* req_body := get_json req in
          if py_truthy req_body then
            let* user_id := py_get req_body "user_id" PNone in
            let* num_recommendations :=
              py_get req_body "num_recommendations" (PInt 10) in
            let* exclude_seen := py_get req_body "exclude_seen" (PBool true) in
            Ok (user_id, num_recommendations, exclude_seen)
          else Ok (params_get req "user_id", PInt q, PBool (query_exclude_seen req)))
         (params_get req "user_id", PInt q, PBool (query_exclude_seen req))
     else Ok (params_get req "user_id", PInt q, PBool (query_exclude_seen req)))
    = Ok (params_get req "user_id", PInt q, PBool (query_exclude_seen req))).
  { destruct (py_truthy (params_get req "user_id")); [reflexivity|]. cbn [negb].
    unfold get_json. destruct (json req) as [v|]; [|reflexivity]. cbn [res_bind].
    destruct (py_truthy v); [|reflexivity]. destruct v; discriminate. }
  rewrite Hkeep. cbn [res_bind].
  rewrite int_if_possible_coerced by apply params_get_finite. cbn [res_bind].
  rewrite py_min_int. cbn [res_bind]. rewrite py_max_int. reflexivity.
Qed.

Lemma extract_from_body (req : HttpRequest) (d : list (string * PyVal)) (q : Z) :
  param_source req = FromBody d ->
  query_num req = Ok q ->
  extract_request_params req
  = (let* user_id := int_if_possible (field d "user_id" PNone) in
     let* lo := py_min (field d "num_recommendations" (PInt 10)) (PInt 100) in
     let* n := py_max (PInt 1) lo in
     Ok (user_id, n, field d "exclude_seen" (PBool true))).
Proof.
  unfold param_source, extract_request_params, query_num. intros Hsrc ->.
  cbn [res_bind]. rewrite lower_is_true_query. cbn [res_bind].
  destruct (py_truthy (params_get req "user_id")); [discriminate|]. cbn [negb].
  unfold get_json. destruct (json req) as [v|]; [|discriminate]. cbn [res_bind].
  destruct (py_truthy v); [|discriminate].
  destruct v; try discriminate. injection Hsrc as ->.
  unfold py_get, field.
  destruct (assoc_get "user_id" d), (assoc_get "num_recommendations" d),
    (assoc_get "exclude_seen" d); reflexivity.
Qed.

Lemma truthy_query_user_id (req : HttpRequest) (s : string) :
  assoc_get "user_id" (params req) = Some s -> s <> "" ->
  py_truthy (params_get req "user_id") = true.
Proof.
  intros H Hs. unfold params_get. rewrite H. cbn [py_truthy].
  apply negb_true_iff, String.eqb_neq, Hs.
Qed.

(** ** The HTTP endpoints *)

(** C6, as amended.  The count comes from the source that supplies the
    parameters: the query string, or the body when the query has no
    non-empty [user_id] and the body is a non-empty JSON object (the count
    of the query string, if any, still has to be an integer literal of no
    more than 4300 digits, and the [user_id] of the body must not be an
    infinite float, on which [int] raises an exception that is not handled).
    A count that is absent from that source is 10, an integer [z] there is
    brought into the range 1 to 100. *)
Theorem num_recommendations_default_and_clamp (req : HttpRequest) :
  (param_source req = FromQuery ->
     (assoc_get "num_recommendations" (params req) = None ->
      exists uid ex, extract_request_params req = Ok (uid, PInt 10, ex))
     /\ (forall s z,
           assoc_get "num_recommendations" (params req) = Some s ->
           int_of_string s = Some z ->
           exists uid ex,
             extract_request_params req = Ok (uid, PInt (Z.max 1 (Z.min z 100)), ex)))
  /\ (forall d q,
        param_source req = FromBody d ->
        query_num req = Ok q ->
        (forall negative, field d "user_id" PNone <> PInf negative) ->
        (assoc_get "num_recommendations" d = None ->
         exists uid ex, extract_request_params req = Ok (uid, PInt 10, ex))
        /\ (forall z,
              assoc_get "num_recommendations" d = Some (PInt z) ->
              exists uid ex,
                extract_request_params req
                = Ok (uid, PInt (Z.max 1 (Z.min z 100)), ex))).
Proof.
  split.
  - intros Hsrc. split.
    + intros Habs. eexists _, _.
      rewrite (extract_from_query req 10 Hsrc); [reflexivity|].
      unfold query_num, params_get_default. now rewrite Habs.
    + intros s z Hs Hz. eexists _, _.
      rewrite (extract_from_query req z Hsrc); [reflexivity|].
      unfold query_num, params_get_default. rewrite Hs. cbn [py_int]. now rewrite Hz.
  - intros d q Hsrc Hq Hfin. rewrite (extract_from_body req d q Hsrc Hq).
    rewrite (int_if_possible_coerced _ Hfin). cbn [res_bind]. unfold field. split.
    + intros ->. eexists _, _. reflexivity.
    + intros z ->. eexists _, _. rewrite py_min_int. cbn [res_bind].
      rewrite py_max_int. reflexivity.
Qed.

Lemma num_recommendations_default_and_clamp_witness :
  param_source req_user_1 = FromQuery
  /\ assoc_get "num_recommendations" (params req_user_1) = Some "250"
  /\ int_of_string "250" = Some 250
  /\ (exists uid ex,
        extract_request_params req_user_1 = Ok (uid, PInt (Z.max 1 (Z.min 250 100)), ex))
  /\ param_source req_body_user
     = FromBody [("user_id", PInt 1); ("num_recommendations", PInt 0)]
  /\ query_num req_body_user = Ok 10
  /\ (forall negative,
        field [("user_id", PInt 1); ("num_recommendations", PInt 0)] "user_id" PNone
        <> PInf negative)
  /\ exists uid ex,
       extract_request_params req_body_user = Ok (uid, PInt (Z.max 1 (Z.min 0 100)), ex).
Proof.
  split; [reflexivity|]. split; [reflexivity|]. split; [reflexivity|]. split.
  - destruct (num_recommendations_default_and_clamp req_user_1) as [Hq _].
    destruct (Hq eq_refl) as [_ Hsome]. apply (Hsome "250" 250); reflexivity.
  - split; [reflexivity|]. split; [reflexivity|]. split; [discriminate|].
    destruct (num_recommendations_default_and_clamp req_body_user) as [_ Hb].
    destruct (Hb _ 10 eq_refl eq_refl) as [_ Hsome]; [discriminate|].
    apply (Hsome 0). reflexivity.
Defined.

(** C6, as stated, fails: the query string supplies the count 5, the body
    supplies the user, and the count returned is 10. *)
Lemma query_count_overridden_by_body :
  assoc_get "num_recommendations" (params req_query_5_body_user) = Some "5"
  /\ int_of_string "5" = Some 5
  /\ extract_request_params req_query_5_body_user = Ok (PInt 7, PInt 10, PBool true)
  /\ PInt 10 <> PInt (Z.max 1 (Z.min 5 100)).
Proof. repeat split; try reflexivity. discriminate. Qed.




(** C9. A count in the query string that is a text of ASCII characters and
    that [int] does not read (it is no integer literal, or one of more than
    4300 digits) makes the extraction raise [ValueError], with no default and
    no clamping; with the model loaded the answer is the error object of an
    internal error, with some message, status 500, and the model is as it
    was. *)
Theorem unreadable_count_is_internal_error (req : HttpRequest) (s : string)
    (m : Model) :
  assoc_get "num_recommendations" (params req) = Some s ->
  ascii_text s = true ->
  int_of_string s = None ->
  exists e,
    extract_request_params req = Raise e
    /\ exn_class e = ValueError
    /\ (exists message,
          recommendation_function req (mkProcess (Some m))
          = (create_error_response "Erreur interne du moteur de recommandation"
               message 500,
             mkProcess (Some m)))
    /\ status_code (fst (recommendation_function req (mkProcess (Some m)))) = 500.
Proof.
  intros Hs _ Hnone.
  assert (Hq : query_num req = Raise (mkExn ValueError (int_error_text s))).
  { unfold query_num, params_get_default. rewrite Hs. cbn [py_int]. now rewrite Hnone. }
  apply extract_query_num_raises in Hq.
  eexists. split; [exact Hq|]. split; [reflexivity|].
  unfold recommendation_function, recommendation_body, bind, lift. cbn [MODEL].
  rewrite Hq. split; [eexists|]; reflexivity.
Qed.

Lemma unreadable_count_is_internal_error_witness :
  assoc_get "num_recommendations" (params req_bad_count) = Some "abc"
  /\ ascii_text "abc" = true
  /\ int_of_string "abc" = None
  /\ exists e,
       extract_request_params req_bad_count = Raise e
       /\ exn_class e = ValueError
       /\ (exists message,
             recommendation_function req_bad_count (mkProcess (Some model_abc))
             = (create_error_response "Erreur interne du moteur de recommandation"
                  message 500,
                mkProcess (Some model_abc)))
       /\ status_code
            (fst (recommendation_function req_bad_count (mkProcess (Some model_abc))))
          = 500.
Proof.
  split; [reflexivity|]. split; [reflexivity|]. split; [reflexivity|].
  apply (unreadable_count_is_internal_error req_bad_count "abc" model_abc); reflexivity.
Defined.

(** C8. The health endpoint answers 200 with the status "healthy", a message
    and the architecture, whatever the request and whether or not a model is
    loaded, and leaves the process as it is. *)
Theorem health_check_always_healthy (req : HttpRequest) (p : Process) :
  health_check req p
  = (mkResponse
       (PDict [("status", PStr "healthy");
               ("message", PStr "Recommendation service is running");
               ("architecture", PStr "Azure Function + Blob Storage Input Binding")])
       200 [("Content-Type", "application/json")], p)
  /\ fst (health_check req p) = fst (health_check req (mkProcess None)).
Proof. split; reflexivity. Qed.

Lemma extract_body_not_object (req : HttpRequest) (q : Z) :
  param_source req = BodyNotObject ->
  query_num req = Ok q ->
  exists e, extract_request_params req = Raise e /\ exn_class e = AttributeError.
Proof.
  unfold param_source, extract_request_params, query_num. intros Hsrc ->.
  cbn [res_bind]. rewrite lower_is_true_query. cbn [res_bind].
  destruct (py_truthy (params_get req "user_id")); [discriminate|]. cbn [negb].
  unfold get_json. destruct (json req) as [v|]; [|discriminate]. cbn [res_bind].
  destruct (py_truthy v); [|discriminate].
  destruct v; try discriminate; eexists; split; reflexivity.
Qed.

Lemma extract_user_id_absent (req : HttpRequest) (uid n ex : PyVal) :
  user_id_absent req ->
  extract_request_params req = Ok (uid, n, ex) ->
  uid = PNone.
Proof.
  intros [Hq Hb] Hext.
  destruct (query_num req) as [q|e] eqn:Eq;
    [|rewrite (extract_query_num_raises req e Eq) in Hext; discriminate].
  destruct (param_source req) as [|d|] eqn:Esrc.
  - rewrite (extract_from_query req q Esrc Eq) in Hext.
    unfold params_get in Hext. rewrite Hq in Hext. now injection Hext as <- _ _.
  - rewrite (extract_from_body req d q Esrc Eq) in Hext.
    assert (Hd : assoc_get "user_id" d = None).
    { unfold param_source in Esrc.
      destruct (py_truthy (params_get req "user_id")); [discriminate|].
      destruct (json req) as [v|]; [|discriminate].
      destruct (py_truthy v); [|discriminate].
      destruct v; try discriminate. now injection Esrc as <-. }
    unfold field in Hext. rewrite Hd in Hext.
    destruct (py_min _ _) as [lo|]; [|discriminate]. cbn [res_bind] in Hext.
    destruct (py_max _ _) as [hi|]; [|discriminate]. cbn [res_bind] in Hext.
    now injection Hext as <- _ _.
  - destruct (extract_body_not_object req q Esrc Eq) as (e & He & _). congruence.
Qed.

Lemma handler_without_user (req : HttpRequest) (m : Model) (uid n ex : PyVal) :
  extract_request_params req = Ok (uid, n, ex) ->
  py_truthy uid = false ->
  recommendation_function req (mkProcess (Some m))
  = (create_error_response "user_id manquant" "Veuillez fournir un user_id" 400,
     mkProcess (Some m)).
Proof.
  intros Hext Hf. unfold recommendation_function, recommendation_body, bind, lift.
  cbn [MODEL]. rewrite Hext, Hf. reflexivity.
Qed.

Lemma handler_with_user (req : HttpRequest) (m : Model) (uid n ex : PyVal) :
  extract_request_params req = Ok (uid, n, ex) ->
  py_truthy uid = true ->
  status_code (fst (recommendation_function req (mkProcess (Some m)))) = 200
  \/ status_code (fst (recommendation_function req (mkProcess (Some m)))) = 500.
Proof.
  intros Hext Ht. unfold recommendation_function, recommendation_body, bind, lift.
  cbn [MODEL]. rewrite Hext, Ht. cbn [negb].
  destruct (generate_recommendations uid n ex m) as [[[recs known]|e] m'];
    [left | right]; reflexivity.
Qed.


(** C5, as amended.  With the model loaded, and for a request whose
    [user_id] and count are ASCII texts where they are texts: a request that
    names no user and whose parameters are extracted without an exception is
    answered 400 with the error object, without a look at the model; a
    request whose extraction raises is answered 500 with an error object of
    the same shape, with some message; a request whose extracted [user_id]
    is a true value is answered 200 or 500, never 400.  With no model loaded
    every request is answered 500 with the error object. *)
Theorem missing_user_id_response (req : HttpRequest) (m : Model) :
  (ascii_request req = true ->
   (forall r, user_id_absent req -> extract_request_params req = Ok r ->
      recommendation_function req (mkProcess (Some m))
      = (mkResponse
           (PDict [("error", PStr "user_id manquant");
                   ("message", PStr "Veuillez fournir un user_id");
                   ("status", PStr "error")])
           400 [("Content-Type", "application/json")],
         mkProcess (Some m)))
   /\ (forall e, extract_request_params req = Raise e ->
         exists message,
           recommendation_function req (mkProcess (Some m))
           = (mkResponse
                (PDict [("error", PStr "Erreur interne du moteur de recommandation");
                        ("message", PStr message);
                        ("status", PStr "error")])
                500 [("Content-Type", "application/json")],
              mkProcess (Some m)))
   /\ (forall uid n ex, extract_request_params req = Ok (uid, n, ex) ->
         py_truthy uid = true ->
         status_code (fst (recommendation_function req (mkProcess (Some m)))) <> 400))
  /\ (forall p, MODEL p = None ->
        recommendation_function req p
        = (mkResponse
             (PDict [("error", PStr "Modele non charge");
                     ("message", PStr "Le modele n'a pas pu etre initialise au demarrage");
                     ("status", PStr "error")])
             500 [("Content-Type", "application/json")],
           p)).
Proof.
  split; [intros _; split; [|split]|].
  - intros [[uid n] ex] Habs Hext.
    rewrite (handler_without_user req m uid n ex Hext); [reflexivity|].
    now rewrite (extract_user_id_absent req uid n ex Habs Hext).
  - intros e Hext. exists (exn_msg e).
    unfold recommendation_function, recommendation_body, bind, lift.
    cbn [MODEL]. now rewrite Hext.
  - intros uid n ex Hext Ht.
    destruct (handler_with_user req m uid n ex Hext Ht) as [-> | ->]; discriminate.
  - intros p Hp. unfold recommendation_function. now rewrite Hp.
Qed.

Lemma missing_user_id_response_witness :
  ascii_request req_nothing = true
  /\ user_id_absent req_nothing
  /\ extract_request_params req_nothing = Ok (PNone, PInt 10, PBool true)
  /\ recommendation_function req_nothing (mkProcess (Some model_abc))
     = (mkResponse
          (PDict [("error", PStr "user_id manquant");
                  ("message", PStr "Veuillez fournir un user_id");
                  ("status", PStr "error")])
          400 [("Content-Type", "application/json")],
        mkProcess (Some model_abc)).
Proof.
  assert (Habs : user_id_absent req_nothing) by (split; [reflexivity | exact I]).
  split; [reflexivity|]. split; [exact Habs|]. split; [reflexivity|].
  destruct (missing_user_id_response req_nothing model_abc) as (Hloaded & _).
  destruct (Hloaded eq_refl) as (H400 & _).
  apply (H400 (PNone, PInt 10, PBool true)); [exact Habs | reflexivity].
Defined.

(** C5, as stated, fails: a request that names no user and carries an
    unreadable count is answered 500 by a loaded model, not 400. *)
Lemma missing_user_id_answered_500 :
  user_id_absent req_bad_count
  /\ status_code
       (fst (recommendation_function req_bad_count (mkProcess (Some model_abc))))
     = 500.
Proof. split; [split; [reflexivity | exact I] | reflexivity]. Qed.

(** The identifier 0 is taken for a missing one: the request is answered 400
    although it names a user. *)
Example user_id_zero_answered_400 :
  extract_request_params (mkRequest [("user_id", "0")] None)
  = Ok (PInt 0, PInt 10, PBool true)
  /\ status_code
       (fst (recommendation_function (mkRequest [("user_id", "0")] None)
               (mkProcess (Some model_abc))))
     = 400.
Proof. split; reflexivity. Qed.

(** An infinite float as [user_id] of the body: [int] raises
    [OverflowError], which the extraction does not handle, and the answer is
    500. *)
Example infinite_user_id_answered_500 :
  exn_class_of (extract_request_params
                  (mkRequest [] (Some (PDict [("user_id", PInf false)]))))
  = Some OverflowError
  /\ status_code
       (fst (recommendation_function
               (mkRequest [] (Some (PDict [("user_id", PInf false)])))
               (mkProcess (Some model_abc))))
     = 500.
Proof. split; reflexivity. Qed.

(** The scenarios of the service on the example model. *)
Example scenario_known_user :
  fst (generate_recommendations (PInt 1) (PInt 2) (PBool true) model_abc)
  = Ok (["B"; "C"], true).
Proof. reflexivity. Qed.

Example scenario_unknown_user :
  fst (generate_recommendations (PInt 999) (PInt 2) (PBool true) model_abc)
  = Ok (["A"; "B"], false).
Proof. reflexivity. Qed.

Example scenario_request :
  fst (recommendation_function req_user_1 (mkProcess (Some model_abc)))
  = mkResponse
      (PDict [("ID de l'utilisateur", PInt 1);
              ("L'utilisateur est-il déjà connu ?", PStr "Oui");
              ("Nombre d'articles recommandés", PInt 2);
              ("Numéros des articles recommandés", PList [PStr "B"; PStr "C"])])
      200 [("Content-Type", "application/json; charset=utf-8")].
Proof. reflexivity. Qed.

(** * Further properties of the service *)

(** ** Integers written and read in decimal *)

Lemma digits_step (acc : Z) (prev : bool) (c : ascii) (r : string) (d : Z) :
  digit_of c = Some d -> digits acc prev (String c r) = digits (10 * acc + d) true r.
Proof. intros H. cbn [digits]. now rewrite H. Qed.

Lemma digits_of_uint_acc (d : Decimal.uint) :
  forall p : positive,
    digits (Z.pos p) true (NilEmpty.string_of_uint d)
    = Some (Z.pos (Pos.of_uint_acc d p)).
Proof.
  induction d; intros p; cbn [NilEmpty.string_of_uint Pos.of_uint_acc];
    [reflexivity | ..];
    erewrite digits_step by (vm_compute; reflexivity);
    match goal with
    | |- digits ?z true _ = Some (Z.pos (Pos.of_uint_acc _ ?q)) =>
        replace z with (Z.pos q) by lia
    end; apply IHd.
Qed.

Lemma digits_of_uint (d : Decimal.uint) :
  digits 0 true (NilEmpty.string_of_uint d) = Some (Z.of_N (Pos.of_uint d)).
Proof.
  induction d; cbn [NilEmpty.string_of_uint Pos.of_uint];
    [reflexivity | ..];
    erewrite digits_step by (vm_compute; reflexivity);
    [exact IHd | ..]; apply digits_of_uint_acc.
Qed.

Lemma digits_first (d : Decimal.uint) :
  d <> Decimal.Nil ->
  read_literal (NilEmpty.string_of_uint d)
  = digits 0 true (NilEmpty.string_of_uint d)
  /\ digits 0 false (NilEmpty.string_of_uint d)
     = digits 0 true (NilEmpty.string_of_uint d).
Proof. destruct d; intros H; [contradiction | ..]; split; reflexivity. Qed.

Lemma read_literal_str_of_Z (z : Z) : read_literal (str_of_Z z) = Some z.
Proof.
  unfold str_of_Z. destruct z as [|p|p]; [reflexivity | |].
  - cbn [Z.to_int NilEmpty.string_of_int].
    destruct (digits_first (Pos.to_uint p)) as [-> _];
      [apply DecimalPos.Unsigned.to_uint_nonnil|].
    rewrite digits_of_uint, DecimalPos.Unsigned.of_to. reflexivity.
  - cbn [Z.to_int NilEmpty.string_of_int].
    change (option_map Z.opp
              (digits 0 false (NilEmpty.string_of_uint (Pos.to_uint p)))
            = Some (Z.neg p)).
    destruct (digits_first (Pos.to_uint p)) as [_ ->];
      [apply DecimalPos.Unsigned.to_uint_nonnil|].
    rewrite digits_of_uint, DecimalPos.Unsigned.of_to. reflexivity.
Qed.

(** [int(str(z))] is [z], for an integer of no more than 4300 digits. *)
Lemma int_of_string_str_of_Z (z : Z) :
  digit_count (str_of_Z z) <= max_str_digits ->
  int_of_string (str_of_Z z) = Some z.
Proof.
  intros H. unfold int_of_string.
  destruct (Z.ltb_spec max_str_digits (digit_count (str_of_Z z))); [lia|].
  apply read_literal_str_of_Z.
Qed.


Lemma str_of_Z_nonempty (z : Z) : str_of_Z z <> "".
Proof. intros H. assert (E := read_literal_str_of_Z z). rewrite H in E. discriminate. Qed.

Lemma coerced_of_text (s : string) (z : Z) :
  int_of_string s = Some z -> coerced (PStr s) = PInt z.
Proof. intros H. unfold coerced, int_if_possible. cbn [py_int]. now rewrite H. Qed.

Lemma coerced_str_of_Z (z : Z) :
  digit_count (str_of_Z z) <= max_str_digits ->
  coerced (PStr (str_of_Z z)) = PInt z.
Proof. intros H. apply coerced_of_text, int_of_string_str_of_Z, H. Qed.

(** ** More on parameter extraction *)

Lemma query_source (req : HttpRequest) (s : string) :
  assoc_get "user_id" (params req) = Some s -> s <> "" ->
  param_source req = FromQuery.
Proof.
  intros H Hs. unfold param_source. now rewrite (truthy_query_user_id req s H Hs).
Qed.

Lemma query_num_decimal (req : HttpRequest) (s : string) (z : Z) :
  assoc_get "num_recommendations" (params req) = Some s ->
  int_of_string s = Some z ->
  query_num req = Ok z.
Proof.
  intros H Hz. unfold query_num, params_get_default. rewrite H. cbn [py_int].
  now rewrite Hz.
Qed.

(** X1. A user id and a count of no more than 4300 digits each, which the
    query string holds in decimal, as [str] writes integers, are extracted
    as those integers, the count brought into the range 1 to 100. *)
Theorem decimal_parameters_read_back (req : HttpRequest) (u n : Z) :
  digit_count (str_of_Z u) <= max_str_digits ->
  digit_count (str_of_Z n) <= max_str_digits ->
  assoc_get "user_id" (params req) = Some (str_of_Z u) ->
  assoc_get "num_recommendations" (params req) = Some (str_of_Z n) ->
  extract_request_params req
  = Ok (PInt u, PInt (Z.max 1 (Z.min n 100)), PBool (query_exclude_seen req)).
Proof.
  intros Hdu Hdn Hu Hn.
  rewrite (extract_from_query req n).
  - unfold params_get. rewrite Hu. now rewrite coerced_str_of_Z.
  - apply (query_source req (str_of_Z u) Hu), str_of_Z_nonempty.
  - apply (query_num_decimal req (str_of_Z n) n Hn), int_of_string_str_of_Z, Hdn.
Qed.

Lemma decimal_parameters_read_back_witness :
  digit_count (str_of_Z 1) <= max_str_digits
  /\ digit_count (str_of_Z 250) <= max_str_digits
  /\ assoc_get "user_id" (params req_user_1) = Some (str_of_Z 1)
  /\ assoc_get "num_recommendations" (params req_user_1) = Some (str_of_Z 250)
  /\ extract_request_params req_user_1
     = Ok (PInt 1, PInt (Z.max 1 (Z.min 250 100)), PBool (query_exclude_seen req_user_1)).
Proof.
  split; [vm_compute; discriminate|]. split; [vm_compute; discriminate|].
  split; [reflexivity|]. split; [reflexivity|].
  apply (decimal_parameters_read_back req_user_1 1 250);
    [vm_compute; discriminate | vm_compute; discriminate | reflexivity | reflexivity].
Defined.

Lemma Qltb_true_lt (a b : Q) : Qltb a b = true -> (a < b)%Q.
Proof.
  unfold Qltb. rewrite negb_true_iff. intros H. apply Qnot_le_lt. intros Hle.
  apply Qle_bool_iff in Hle. congruence.
Qed.

(** [max(1, min(v, 100))] on a number: an integer from 1 to 100, or the
    float itself when it lies above 1 and not above 100. *)
Lemma clamp_numeric (v : PyVal) (x : Num) :
  number v = Some x ->
  exists n,
    (let* lo := py_min v (PInt 100) in py_max (PInt 1) lo) = Ok n
    /\ ((exists z, n = PInt z /\ 1 <= z <= 100)
        \/ (exists q, n = PFloat q /\ (1 < q)%Q /\ (q <= 100)%Q)).
Proof.
  destruct v as [|b|z|q|negative| | | |]; try discriminate; intros _.
  - exists (PInt 1). split; [now destruct b|]. left. exists 1. split; [reflexivity | lia].
  - exists (PInt (Z.max 1 (Z.min z 100))). split.
    + rewrite py_min_int. cbn [res_bind]. apply py_max_int.
    + left. eexists. split; [reflexivity | lia].
  - unfold py_min, py_lt. cbn [number num_val option_map Num_ltb].
    destruct (Qltb (inject_Z 100) q) eqn:E100; cbn [res_bind].
    + exists (PInt 100). split; [reflexivity|]. left. exists 100. split; [reflexivity | lia].
    + unfold py_max, py_gt. cbn [number num_val option_map Num_ltb].
      destruct (Qltb (inject_Z 1) q) eqn:E1.
      * exists (PFloat q). split; [reflexivity|]. right. exists q.
        split; [reflexivity|]. split; [now apply Qltb_true_lt | now apply Qltb_false_iff].
      * exists (PInt 1). split; [reflexivity|]. left. exists 1. split; [reflexivity | lia].
  - destruct negative.
    + exists (PInt 1). split; [reflexivity|]. left. exists 1. split; [reflexivity | lia].
    + exists (PInt 100). split; [reflexivity|]. left. exists 100.
      split; [reflexivity | lia].
  - exists (PInt 1). split; [reflexivity|]. left. exists 1. split; [reflexivity | lia].
Qed.

Lemma clamp_not_numeric (v : PyVal) :
  number v = None ->
  exists e,
    (let* lo := py_min v (PInt 100) in py_max (PInt 1) lo) = Raise e
    /\ exn_class e = TypeError.
Proof.
  intros H. unfold py_min, py_lt. cbn [number num_val option_map]. rewrite H.
  cbn [res_bind]. eexists. split; reflexivity.
Qed.

Lemma extract_from_body_numeric (req : HttpRequest) (d : list (string * PyVal))
    (q : Z) (n : PyVal) :
  param_source req = FromBody d ->
  query_num req = Ok q ->
  (forall negative, field d "user_id" PNone <> PInf negative) ->
  (let* lo := py_min (field d "num_recommendations" (PInt 10)) (PInt 100) in
   py_max (PInt 1) lo) = Ok n ->
  extract_request_params req
  = Ok (coerced (field d "user_id" PNone), n, field d "exclude_seen" (PBool true)).
Proof.
  intros Hsrc Hq Hfin Hn. rewrite (extract_from_body req d q Hsrc Hq).
  rewrite (int_if_possible_coerced _ Hfin). cbn [res_bind].
  destruct (py_min _ _) as [lo|e]; [|discriminate]. cbn [res_bind] in *.
  now rewrite Hn.
Qed.

Lemma extract_from_body_raises (req : HttpRequest) (d : list (string * PyVal))
    (q : Z) (e : Exn) :
  param_source req = FromBody d ->
  query_num req = Ok q ->
  (forall negative, field d "user_id" PNone <> PInf negative) ->
  (let* lo := py_min (field d "num_recommendations" (PInt 10)) (PInt 100) in
   py_max (PInt 1) lo) = Raise e ->
  extract_request_params req = Raise e.
Proof.
  intros Hsrc Hq Hfin Hn. rewrite (extract_from_body req d q Hsrc Hq).
  rewrite (int_if_possible_coerced _ Hfin). cbn [res_bind].
  destruct (py_min _ _) as [lo|e']; cbn [res_bind] in *; [now rewrite Hn | congruence].
Qed.

(** An infinite float as the [user_id] of the body stops the extraction:
    [int] raises [OverflowError] on it, which is not handled. *)
Lemma extract_from_body_infinite (req : HttpRequest) (d : list (string * PyVal))
    (q : Z) (negative : bool) :
  param_source req = FromBody d ->
  query_num req = Ok q ->
  field d "user_id" PNone = PInf negative ->
  exists e, extract_request_params req = Raise e /\ exn_class e = OverflowError.
Proof.
  intros Hsrc Hq Hinf. rewrite (extract_from_body req d q Hsrc Hq), Hinf.
  eexists. split; reflexivity.
Qed.

Lemma infinite_or_not (v : PyVal) :
  (exists negative, v = PInf negative) \/ (forall negative, v <> PInf negative).
Proof. destruct v; try (right; discriminate). left. now eexists. Qed.

(** X2. For a request whose texts are ASCII texts, extraction returns exactly
    when the count of the query string is absent or readable by [int], and
    either the parameters come from the query string, or they come from a
    JSON object whose count is absent or a number and whose [user_id] is not
    an infinite float.  In the other cases it raises. *)
Theorem extraction_succeeds_iff (req : HttpRequest) :
  ascii_request req = true ->
  ((exists r, extract_request_params req = Ok r)
   <-> (exists q, query_num req = Ok q)
       /\ match param_source req with
          | FromQuery => True
          | FromBody d =>
              number (field d "num_recommendations" (PInt 10)) <> None
              /\ forall negative, field d "user_id" PNone <> PInf negative
          | BodyNotObject => False
          end).
Proof.
  intros _. split.
  - intros (r & Hr).
    destruct (query_num req) as [q|e] eqn:Eq;
      [|rewrite (extract_query_num_raises req e Eq) in Hr; discriminate].
    split; [now exists q|].
    destruct (param_source req) as [|d|] eqn:Esrc; [exact I | |].
    + destruct (infinite_or_not (field d "user_id" PNone)) as [(negative & Hinf) | Hfin].
      * destruct (extract_from_body_infinite req d q negative Esrc Eq Hinf)
          as (e & He & _). congruence.
      * split; [|exact Hfin].
        intros Hnone. destruct (clamp_not_numeric _ Hnone) as (e & He & _).
        rewrite (extract_from_body_raises req d q e Esrc Eq Hfin He) in Hr.
        discriminate.
    + destruct (extract_body_not_object req q Esrc Eq) as (e & He & _). congruence.
  - intros [(q & Eq) Hsrc].
    destruct (param_source req) as [|d|] eqn:Esrc; [| |contradiction].
    + eexists. apply (extract_from_query req q Esrc Eq).
    + destruct Hsrc as [Hnum Hfin].
      destruct (number (field d "num_recommendations" (PInt 10))) as [x|] eqn:Ex;
        [|contradiction].
      destruct (clamp_numeric _ x Ex) as (n & Hn & _).
      eexists. apply (extract_from_body_numeric req d q n Esrc Eq Hfin Hn).
Qed.

Lemma extraction_succeeds_iff_witness :
  ascii_request req_body_user = true
  /\ (exists q, query_num req_body_user = Ok q)
  /\ (exists r, extract_request_params req_body_user = Ok r).
Proof.
  split; [reflexivity|]. split; [now exists 10|].
  apply (proj2 (extraction_succeeds_iff req_body_user eq_refl)).
  split; [now exists 10 | split; discriminate].
Defined.

(** The count that extraction returns is an integer from 1 to 100, or, when
    a JSON body supplied a float, that float above 1 and not above 100. *)
Lemma extracted_count_cases (req : HttpRequest) (uid n ex : PyVal) :
  extract_request_params req = Ok (uid, n, ex) ->
  (exists z, n = PInt z /\ 1 <= z <= 100)
  \/ (exists q, n = PFloat q /\ (1 < q)%Q /\ (q <= 100)%Q).
Proof.
  intros Hext.
  destruct (query_num req) as [q|e] eqn:Eq;
    [|rewrite (extract_query_num_raises req e Eq) in Hext; discriminate].
  destruct (param_source req) as [|d|] eqn:Esrc.
  - rewrite (extract_from_query req q Esrc Eq) in Hext. injection Hext as _ <- _.
    left. eexists. split; [reflexivity | lia].
  - destruct (infinite_or_not (field d "user_id" PNone)) as [(negative & Hinf) | Hfin].
    { destruct (extract_from_body_infinite req d q negative Esrc Eq Hinf)
        as (e & He & _). congruence. }
    destruct (number (field d "num_recommendations" (PInt 10))) as [x|] eqn:Ex.
    + destruct (clamp_numeric _ x Ex) as (n' & Hn & Hb).
      rewrite (extract_from_body_numeric req d q n' Esrc Eq Hfin Hn) in Hext.
      injection Hext as _ <- _. exact Hb.
    + destruct (clamp_not_numeric _ Ex) as (e & He & _).
      rewrite (extract_from_body_raises req d q e Esrc Eq Hfin He) in Hext.
      discriminate.
  - destruct (extract_body_not_object req q Esrc Eq) as (e & He & _). congruence.
Qed.

(** ** More on the handler *)

Lemma handler_on_extracted (req : HttpRequest) (m : Model) (uid n ex : PyVal) :
  extract_request_params req = Ok (uid, n, ex) ->
  py_truthy uid = true ->
  recommendation_function req (mkProcess (Some m))
  = match generate_recommendations uid n ex m with
    | (Ok (recs, known), m') => (success_response uid known recs, mkProcess (Some m'))
    | (Raise e, m') => (internal_error e, mkProcess (Some m'))
    end.
Proof.
  intros Hext Ht. unfold recommendation_function, recommendation_body, bind, lift.
  cbn [MODEL]. rewrite Hext, Ht. cbn [negb].
  destruct (generate_recommendations uid n ex m) as [[[recs known]|e] m']; reflexivity.
Qed.



Lemma generate_recommendations_truth (uid n ex ex' : PyVal) :
  py_truthy ex = py_truthy ex' ->
  generate_recommendations uid n ex = generate_recommendations uid n ex'.
Proof. intros H. unfold generate_recommendations. now rewrite H. Qed.

Lemma handler_raise (req : HttpRequest) (m : Model) (e : Exn) :
  extract_request_params req = Raise e ->
  recommendation_function req (mkProcess (Some m))
  = (internal_error e, mkProcess (Some m)).
Proof.
  intros Hext. unfold recommendation_function, recommendation_body, bind, lift.
  cbn [MODEL]. now rewrite Hext.
Qed.

(** X4. In a JSON body [exclude_seen] counts by its truth value only: two
    requests whose bodies agree on the user and on the count, and whose
    values of [exclude_seen] are both true values or both false ones, get
    the same answer.  So a string that is not empty, the text [false]
    included, does what [True] does. *)
Theorem body_exclude_seen_by_truth (req req' : HttpRequest)
    (d d' : list (string * PyVal)) (q q' : Z) (p : Process) :
  param_source req = FromBody d ->
  param_source req' = FromBody d' ->
  query_num req = Ok q ->
  query_num req' = Ok q' ->
  field d "user_id" PNone = field d' "user_id" PNone ->
  field d "num_recommendations" (PInt 10) = field d' "num_recommendations" (PInt 10) ->
  py_truthy (field d "exclude_seen" (PBool true))
  = py_truthy (field d' "exclude_seen" (PBool true)) ->
  recommendation_function req p = recommendation_function req' p.
Proof.
  intros Hsrc Hsrc' Hq Hq' Huid Hnum Hex.
  destruct p as [[m|]]; [|reflexivity].
  destruct (infinite_or_not (field d "user_id" PNone)) as [(negative & Hinf) | Hfin].
  { assert (Hext := extract_from_body req d q Hsrc Hq).
    assert (Hext' := extract_from_body req' d' q' Hsrc' Hq').
    rewrite <- Huid in Hext'. rewrite Hinf in Hext, Hext'.
    now rewrite (handler_raise req m _ Hext), (handler_raise req' m _ Hext'). }
  assert (Hfin' : forall negative, field d' "user_id" PNone <> PInf negative)
    by now rewrite <- Huid.
  destruct (let* lo := py_min (field d "num_recommendations" (PInt 10)) (PInt 100) in
            py_max (PInt 1) lo) as [n|e] eqn:Hn.
  - assert (Hext := extract_from_body_numeric req d q n Hsrc Hq Hfin Hn).
    rewrite Hnum in Hn.
    assert (Hext' := extract_from_body_numeric req' d' q' n Hsrc' Hq' Hfin' Hn).
    rewrite <- Huid in Hext'.
    destruct (py_truthy (coerced (field d "user_id" PNone))) eqn:Ht.
    + rewrite (handler_on_extracted req m _ _ _ Hext Ht),
        (handler_on_extracted req' m _ _ _ Hext' Ht).
      now rewrite (generate_recommendations_truth _ _ _ _ Hex).
    + rewrite (handler_without_user req m _ _ _ Hext Ht),
        (handler_without_user req' m _ _ _ Hext' Ht). reflexivity.
  - assert (Hext := extract_from_body_raises req d q e Hsrc Hq Hfin Hn).
    rewrite Hnum in Hn.
    assert (Hext' := extract_from_body_raises req' d' q' e Hsrc' Hq' Hfin' Hn).
    now rewrite (handler_raise req m e Hext), (handler_raise req' m e Hext').
Qed.

Lemma body_exclude_seen_by_truth_witness :
  param_source (req_body_exclude (PStr "false"))
  = FromBody [("user_id", PInt 1); ("exclude_seen", PStr "false")]
  /\ param_source (req_body_exclude (PBool true))
     = FromBody [("user_id", PInt 1); ("exclude_seen", PBool true)]
  /\ recommendation_function (req_body_exclude (PStr "false"))
       (mkProcess (Some model_abc))
     = recommendation_function (req_body_exclude (PBool true))
         (mkProcess (Some model_abc)).
Proof.
  split; [reflexivity|]. split; [reflexivity|].
  apply (body_exclude_seen_by_truth
           (req_body_exclude (PStr "false")) (req_body_exclude (PBool true))
           [("user_id", PInt 1); ("exclude_seen", PStr "false")]
           [("user_id", PInt 1); ("exclude_seen", PBool true)] 10 10);
    reflexivity.
Defined.

(** A list returned by [generate_recommendations] is the cut, at the count,
    of a ranking by estimate or of a ranking by number of ratings. *)
Lemma generate_recommendations_ok_inv (uid n ex : PyVal) (m m' : Model)
    (recs : list string) (known : bool) :
  generate_recommendations uid n ex m = (Ok (recs, known), m') ->
  (exists r top : list (RawId * Q), py_slice_to n r = Ok top /\ recs = render top)
  \/ (exists r top : list (RawId * nat), py_slice_to n r = Ok top /\ recs = render top).
Proof.
  unfold generate_recommendations, bind, trainset_all_items, lift, ret. intros H.
  destruct (lookup_user uid m) as [[[seen ue]|e] m1]; [|discriminate].
  destruct ue.
  - match type of H with
    | match ?c with _ => _ end = _ => destruct c as [[cands|e] m2]; [|discriminate]
    end.
    match type of H with
    | match ?c with _ => _ end = _ => destruct c as [[preds|e] m3]; [|discriminate]
    end.
    destruct (py_slice_to n (sort_desc Qltb snd preds)) as [top|e] eqn:Es;
      [|discriminate].
    injection H as <- _ _. left. now exists (sort_desc Qltb snd preds), top.
  - match type of H with
    | match ?c with _ => _ end = _ => destruct c as [[pops|e] m2]; [|discriminate]
    end.
    destruct (py_slice_to n (sort_desc Nat.ltb snd pops)) as [top|e] eqn:Es;
      [|discriminate].
    injection H as <- _ _. right. now exists (sort_desc Nat.ltb snd pops), top.
Qed.

Lemma render_length {V : Type} (top : list (RawId * V)) :
  List.length (render top) = List.length top.
Proof. apply length_map. Qed.

Lemma generate_recommendations_at_most (uid ex : PyVal) (z : Z) (m m' : Model)
    (recs : list string) (known : bool) :
  0 <= z ->
  generate_recommendations uid (PInt z) ex m = (Ok (recs, known), m') ->
  Z.of_nat (List.length recs) <= z.
Proof.
  intros Hz H.
  destruct (generate_recommendations_ok_inv uid (PInt z) ex m m' recs known H)
    as [(r & top & Hs & ->) | (r & top & Hs & ->)];
    cbn [py_slice_to] in Hs; injection Hs as <-;
    rewrite render_length, slice_to_length by exact Hz; lia.
Qed.

Lemma generate_recommendations_float (uid ex : PyVal) (q : Q) (m : Model) :
  exists e m', generate_recommendations uid (PFloat q) ex m = (Raise e, m').
Proof.
  destruct (generate_recommendations uid (PFloat q) ex m) as [[[recs known]|e] m'] eqn:G.
  - destruct (generate_recommendations_ok_inv _ _ _ _ _ _ _ G)
      as [(r & top & Hs & _) | (r & top & Hs & _)]; discriminate.
  - now exists e, m'.
Qed.

Lemma response_cases (req : HttpRequest) (p : Process) :
  (exists error message code,
     fst (recommendation_function req p) = create_error_response error message code
     /\ (code = 400 \/ code = 500))
  \/ (exists uid known recs,
        fst (recommendation_function req p) = success_response uid known recs
        /\ (List.length recs <= 100)%nat).
Proof.
  destruct p as [[m|]]; [|left; eexists _, _, _; split; [reflexivity | now right]].
  destruct (extract_request_params req) as [[[uid n] ex]|e] eqn:Hext.
  - destruct (py_truthy uid) eqn:Ht.
    + rewrite (handler_on_extracted req m uid n ex Hext Ht).
      destruct (generate_recommendations uid n ex m) as [[[recs known]|e] m'] eqn:G.
      * right. exists uid, known, recs. split; [reflexivity|].
        destruct (extracted_count_cases req uid n ex Hext)
          as [(z & -> & Hz) | (q & -> & _)].
        -- assert (H := generate_recommendations_at_most uid ex z m m' recs known
                          ltac:(lia) G). lia.
        -- destruct (generate_recommendations_float uid ex q m) as (e & m2 & He).
           congruence.
      * left. eexists _, _, _. split; [reflexivity | now right].
    + rewrite (handler_without_user req m uid n ex Hext Ht).
      left. eexists _, _, _. split; [reflexivity | now left].
  - left. unfold recommendation_function, recommendation_body, bind, lift.
    cbn [MODEL]. rewrite Hext. eexists _, _, _. split; [reflexivity | now right].
Qed.




(** ** Requests in a row *)

Lemma same_process_refl (p : Process) : same_process p p.
Proof. unfold same_process. destruct (MODEL p); [apply same_reads_refl | exact I]. Qed.

Lemma same_process_trans (p1 p2 p3 : Process) :
  same_process p1 p2 -> same_process p2 p3 -> same_process p1 p3.
Proof.
  unfold same_process.
  destruct (MODEL p1), (MODEL p2), (MODEL p3); try contradiction; try exact (fun _ _ => I).
  apply same_reads_trans.
Qed.

Lemma reads_only_recommendation_body (req : HttpRequest) :
  reads_only (recommendation_body req).
Proof.
  unfold recommendation_body.
  apply reads_only_bind; [apply reads_only_lift|]. intros [[uid n] ex].
  destruct (negb (py_truthy uid)); [apply reads_only_ret|].
  apply reads_only_bind; [apply reads_only_generate_recommendations|].
  intros [recs known]. apply reads_only_ret.
Qed.

Lemma recommendation_function_same_process (req : HttpRequest) (p p' : Process) :
  same_process p p' ->
  fst (recommendation_function req p') = fst (recommendation_function req p)
  /\ same_process p (snd (recommendation_function req p))
  /\ same_process p' (snd (recommendation_function req p')).
Proof.
  destruct p as [[m|]], p' as [[m'|]]; unfold same_process; cbn [MODEL];
    try contradiction; [|intros _; repeat split].
  intros Hsame. destruct (reads_only_recommendation_body req) as [H1 H2].
  assert (Hm := H1 m). assert (Hm' := H1 m'). assert (Hr := H2 m m' Hsame).
  unfold recommendation_function. cbn [MODEL].
  destruct (recommendation_body req m) as [r m1],
    (recommendation_body req m') as [r' m1']. cbn [fst snd] in *. subst r'.
  destruct r as [response|e]; cbn [fst snd MODEL];
    (split; [reflexivity | split; assumption]).
Qed.

Lemma serve_same_process (reqs : list HttpRequest) :
  forall p, same_process p (snd (serve reqs p)).
Proof.
  induction reqs as [|req rest IH]; intros p; cbn [serve]; [apply same_process_refl|].
  destruct (recommendation_function_same_process req p p (same_process_refl p))
    as (_ & Hp & _).
  destruct (recommendation_function req p) as [response p1]. cbn [snd] in Hp.
  specialize (IH p1). destruct (serve rest p1) as [responses p2]. cbn [snd] in *.
  eapply same_process_trans; eassumption.
Qed.

(** X7. The answer to a request does not depend on the requests that were
    served before it: after any series of requests the process answers as it
    did at the start. *)
Theorem answer_independent_of_history (reqs : list HttpRequest) (req : HttpRequest)
    (p : Process) :
  fst (recommendation_function req (snd (serve reqs p)))
  = fst (recommendation_function req p).
Proof.
  apply recommendation_function_same_process, serve_same_process.
Qed.



(** X9. From the query string to the response: for a request whose query
    string holds a user id, an ASCII text, that counts as true after the
    attempt to read it as an integer, and a count [q] that is absent or
    readable by [int], a known user is answered 200 with the word Oui and
    the first clamp of [q] candidates by estimate, an unknown user 200 with
    the word Non and the first clamp of [q] items by number of ratings. *)
Theorem recommendation_end_to_end (req : HttpRequest) (s : string) (q : Z)
    (m : Model) (raws : list RawId) :
  assoc_get "user_id" (params req) = Some s ->
  s <> "" ->
  ascii_text s = true ->
  py_truthy (coerced (PStr s)) = true ->
  query_num req = Ok q ->
  item_ids (trainset m) = Ok raws ->
  (forall seen, known_user (trainset m) (coerced (PStr s)) seen ->
     fst (recommendation_function req (mkProcess (Some m)))
     = success_response (coerced (PStr s)) true
         (map py_str
            (slice_to (Z.max 1 (Z.min q 100))
               (ranked_ids m (coerced (PStr s))
                  (candidate_pool raws seen (query_exclude_seen req))))))
  /\ (unknown_user (trainset m) (coerced (PStr s)) -> NoDup raws ->
      fst (recommendation_function req (mkProcess (Some m)))
      = success_response (coerced (PStr s)) false
          (map py_str
             (map fst
                (slice_to (Z.max 1 (Z.min q 100))
                   (popularity_ranking (trainset m) raws))))).
Proof.
  intros Hs Hne _ Ht Hq Hraws.
  assert (Hext : extract_request_params req
                 = Ok (coerced (PStr s), PInt (Z.max 1 (Z.min q 100)),
                       PBool (query_exclude_seen req))).
  { rewrite (extract_from_query req q (query_source req s Hs Hne) Hq).
    unfold params_get. now rewrite Hs. }
  rewrite (handler_on_extracted req m _ _ _ Hext Ht). split.
  - intros seen Hknown.
    assert (H := known_result m (coerced (PStr s)) (PBool (query_exclude_seen req))
                   (Z.max 1 (Z.min q 100)) seen raws Hknown Hraws).
    destruct (generate_recommendations _ _ _ m) as [[[recs known]|e] m'];
      cbn [fst py_truthy] in H; [|discriminate].
    now injection H as -> ->.
  - intros Hunknown Hnd.
    assert (H := unknown_result m (coerced (PStr s)) (PBool (query_exclude_seen req))
                   (Z.max 1 (Z.min q 100)) raws Hunknown Hraws Hnd).
    destruct (generate_recommendations _ _ _ m) as [[[recs known]|e] m'];
      cbn [fst] in H; [|discriminate].
    injection H as -> ->. unfold render. now rewrite map_map.
Qed.

Lemma recommendation_end_to_end_witness :
  assoc_get "user_id" (params req_user_1) = Some "1"
  /\ ascii_text "1" = true
  /\ query_num req_user_1 = Ok 250
  /\ item_ids (trainset model_abc) = Ok raws_abc
  /\ known_user (trainset model_abc) (coerced (PStr "1")) [RStr "A"]
  /\ fst (recommendation_function req_user_1 (mkProcess (Some model_abc)))
     = success_response (coerced (PStr "1")) true
         (map py_str
            (slice_to (Z.max 1 (Z.min 250 100))
               (ranked_ids model_abc (coerced (PStr "1"))
                  (candidate_pool raws_abc [RStr "A"] (query_exclude_seen req_user_1))))).
Proof.
  assert (Hk : known_user (trainset model_abc) (coerced (PStr "1")) [RStr "A"])
    by (exists 0%nat; split; reflexivity).
  split; [reflexivity|]. split; [reflexivity|]. split; [reflexivity|].
  split; [reflexivity|]. split; [exact Hk|].
  destruct (recommendation_end_to_end req_user_1 "1" 250 model_abc raws_abc)
    as [Hknown _];
    [reflexivity | discriminate | reflexivity | reflexivity | reflexivity
    | reflexivity |].
  exact (Hknown [RStr "A"] Hk).
Defined.

(** ** Exceptions inside the recommender *)




(** ** Sorting and filtering, cutting and extending *)

Section SortFilter.
Context {A K : Type} (ltb : K -> K -> bool) (key : A -> K).
Hypothesis ltb_asym : forall a b, ltb a b = true -> ltb b a = false.
Hypothesis ltb_negtrans :
  forall a b c, ltb a b = false -> ltb b c = false -> ltb a c = false.

Lemma insert_desc_front (x : A) (l : list A) :
  Forall (not_below ltb key x) l -> insert_desc ltb key x l = x :: l.
Proof.
  destruct l as [|y r]; [reflexivity|]. intros H. inversion H as [|? ? Hy _]; subst.
  cbn [insert_desc]. unfold not_below in Hy. now rewrite Hy.
Qed.

Lemma insert_desc_filter_comm (p : A -> bool) (x : A) (l : list A) :
  StronglySorted (not_below ltb key) l ->
  filter p (insert_desc ltb key x l)
  = if p x then insert_desc ltb key x (filter p l) else filter p l.
Proof.
  induction l as [|y r IH]; intros Hs.
  - cbn. now destruct (p x).
  - inversion Hs as [|? ? Hr Hy]; subst. cbn [insert_desc].
    destruct (ltb (key x) (key y)) eqn:E.
    + cbn [filter]. rewrite (IH Hr).
      destruct (p y), (p x); try reflexivity. cbn [insert_desc]. now rewrite E.
    + cbn [filter]. destruct (p x) eqn:Ex; [|reflexivity].
      symmetry. apply insert_desc_front.
      assert (Hall : Forall (not_below ltb key x) (y :: r)).
      { constructor; [exact E|]. rewrite Forall_forall in *. intros z Hz.
        eapply ltb_negtrans; [exact E | apply Hy, Hz]. }
      rewrite Forall_forall in *. intros z Hz.
      apply Hall. apply (proj1 (filter_In p z (y :: r)) Hz).
Qed.

(** Filtering a ranking gives the ranking of the filtered list. *)
Lemma sort_desc_filter (p : A -> bool) (l : list A) :
  filter p (sort_desc ltb key l) = sort_desc ltb key (filter p l).
Proof.
  induction l as [|x r IH]; [reflexivity|].
  cbn [sort_desc fold_right]. fold (sort_desc ltb key r).
  rewrite insert_desc_filter_comm
    by (apply sort_desc_sorted; [exact ltb_asym | exact ltb_negtrans]).
  cbn [filter]. destruct (p x); [|exact IH].
  cbn [sort_desc fold_right]. fold (sort_desc ltb key (filter p r)). now rewrite IH.
Qed.
End SortFilter.

Lemma slice_to_nil {A : Type} (n : Z) : slice_to n ([] : list A) = [].
Proof. unfold slice_to. destruct (n <? 0); apply firstn_nil. Qed.

Lemma slice_to_extend {A : Type} (k k' : Z) (l : list A) :
  0 <= k <= k' -> exists more, slice_to k' l = (slice_to k l ++ more)%list.
Proof.
  intros H. unfold slice_to.
  destruct (Z.ltb_spec k 0); [lia|]. destruct (Z.ltb_spec k' 0); [lia|].
  exists (skipn (Z.to_nat k) (firstn (Z.to_nat k') l)).
  rewrite <- (firstn_skipn (Z.to_nat k) (firstn (Z.to_nat k') l)) at 1.
  f_equal. rewrite firstn_firstn. f_equal. lia.
Qed.

Lemma slice_to_length_any {A : Type} (n : Z) (l : list A) :
  Z.of_nat (List.length (slice_to n l))
  = if n <? 0 then Z.max 0 (Z.of_nat (List.length l) + n)
    else Z.min n (Z.of_nat (List.length l)).
Proof.
  unfold slice_to. destruct (Z.ltb_spec n 0); rewrite length_firstn; lia.
Qed.

(** ** More on the recommender *)

(** X12. Leaving out the rated items does not change the order of the
    others: for a known user the list with [exclude_seen] is the ranking of
    all items with the rated ones struck out, then cut at the count. *)
Theorem exclusion_keeps_order (m : Model) (uid : PyVal) (count : Z)
    (seen raws : list RawId) :
  known_user (trainset m) uid seen ->
  item_ids (trainset m) = Ok raws ->
  fst (generate_recommendations uid (PInt count) (PBool false) m)
  = Ok (map py_str (slice_to count (ranked_ids m uid raws)), true)
  /\ fst (generate_recommendations uid (PInt count) (PBool true) m)
     = Ok (map py_str
             (slice_to count
                (filter (fun r => negb (set_mem r seen)) (ranked_ids m uid raws))),
           true).
Proof.
  intros Hknown Hraws. split.
  - now rewrite (known_result m uid (PBool false) count seen raws Hknown Hraws).
  - rewrite (known_result m uid (PBool true) count seen raws Hknown Hraws).
    cbn [py_truthy candidate_pool]. unfold ranked_ids.
    now rewrite (sort_desc_filter Qltb (est m uid) Qltb_asym Qltb_negtrans).
Qed.

Lemma exclusion_keeps_order_witness :
  known_user (trainset model_abc) (PInt 2) [RStr "A"; RStr "B"]
  /\ item_ids (trainset model_abc) = Ok raws_abc
  /\ fst (generate_recommendations (PInt 2) (PInt 3) (PBool true) model_abc)
     = Ok (map py_str
             (slice_to 3
                (filter (fun r => negb (set_mem r [RStr "A"; RStr "B"]))
                   (ranked_ids model_abc (PInt 2) raws_abc))),
           true).
Proof.
  assert (Hk : known_user (trainset model_abc) (PInt 2) [RStr "A"; RStr "B"])
    by (exists 1%nat; split; reflexivity).
  split; [exact Hk|]. split; [reflexivity|].
  apply (exclusion_keeps_order model_abc (PInt 2) 3 [RStr "A"; RStr "B"] raws_abc);
    [exact Hk | reflexivity].
Defined.

(** X13. Asking for more only adds to the end: for counts [k <= k'] that
    are not negative, the list for [k'] starts with the list for [k], for a
    known user as for an unknown one. *)
Theorem larger_count_extends_list (m : Model) (uid ex : PyVal) (k k' : Z)
    (raws : list RawId) :
  0 <= k <= k' ->
  item_ids (trainset m) = Ok raws ->
  (exists seen, known_user (trainset m) uid seen)
  \/ (unknown_user (trainset m) uid /\ NoDup raws) ->
  exists recs more known,
    fst (generate_recommendations uid (PInt k) ex m) = Ok (recs, known)
    /\ fst (generate_recommendations uid (PInt k') ex m) = Ok ((recs ++ more)%list, known).
Proof.
  intros Hk Hraws [(seen & Hknown) | (Hunknown & Hnd)].
  - set (ranking := ranked_ids m uid (candidate_pool raws seen (py_truthy ex))).
    destruct (slice_to_extend k k' ranking Hk) as (more & Hmore).
    exists (map py_str (slice_to k ranking)), (map py_str more), true. split.
    + now apply known_result.
    + rewrite (known_result m uid ex k' seen raws Hknown Hraws). fold ranking.
      now rewrite Hmore, map_app.
  - set (ranking := popularity_ranking (trainset m) raws).
    destruct (slice_to_extend k k' ranking Hk) as (more & Hmore).
    exists (render (slice_to k ranking)), (render more), false. split.
    + now apply unknown_result.
    + rewrite (unknown_result m uid ex k' raws Hunknown Hraws Hnd). fold ranking.
      rewrite Hmore. unfold render. now rewrite map_app.
Qed.

Lemma larger_count_extends_list_witness :
  item_ids (trainset model_abc) = Ok raws_abc
  /\ unknown_user (trainset model_abc) (PInt 999)
  /\ NoDup raws_abc
  /\ exists recs more known,
       fst (generate_recommendations (PInt 999) (PInt 1) (PBool true) model_abc)
       = Ok (recs, known)
       /\ fst (generate_recommendations (PInt 999) (PInt 3) (PBool true) model_abc)
          = Ok ((recs ++ more)%list, known).
Proof.
  assert (Hu : unknown_user (trainset model_abc) (PInt 999))
    by (eexists; split; reflexivity).
  assert (Hnd : NoDup raws_abc) by (unfold raws_abc; solve_NoDup).
  split; [reflexivity|]. split; [exact Hu|]. split; [exact Hnd|].
  apply (larger_count_extends_list model_abc (PInt 999) (PBool true) 1 3 raws_abc);
    [lia | reflexivity | right; now split].
Defined.

(** X14. A known user who rated every item gets the empty list, with the
    flag [True], when the rated items are left out. *)
Theorem nothing_left_to_recommend (m : Model) (uid ex : PyVal) (count : Z)
    (seen raws : list RawId) :
  known_user (trainset m) uid seen ->
  item_ids (trainset m) = Ok raws ->
  (forall r, In r raws -> In r seen) ->
  py_truthy ex = true ->
  fst (generate_recommendations uid (PInt count) ex m) = Ok ([], true).
Proof.
  intros Hknown Hraws Hall Hex.
  rewrite (known_result m uid ex count seen raws Hknown Hraws), Hex.
  assert (Hpool : candidate_pool raws seen true = []).
  { destruct (candidate_pool raws seen true) as [|r l] eqn:E; [reflexivity|].
    assert (Hin : In r (candidate_pool raws seen true)) by (rewrite E; now left).
    apply candidate_pool_In in Hin as [Hr Hns]. exfalso. apply Hns, Hall, Hr. }
  rewrite Hpool. unfold ranked_ids. cbn [sort_desc fold_right].
  now rewrite slice_to_nil.
Qed.

Lemma nothing_left_to_recommend_witness :
  known_user (trainset model_single) (PInt 1) [RStr "A"]
  /\ item_ids (trainset model_single) = Ok [RStr "A"]
  /\ fst (generate_recommendations (PInt 1) (PInt 5) (PBool true) model_single)
     = Ok ([], true).
Proof.
  assert (Hk : known_user (trainset model_single) (PInt 1) [RStr "A"])
    by (exists 0%nat; split; reflexivity).
  split; [exact Hk|]. split; [reflexivity|].
  apply (nothing_left_to_recommend model_single (PInt 1) (PBool true) 5
           [RStr "A"] [RStr "A"]);
    [exact Hk | reflexivity | trivial | reflexivity].
Defined.

(** X15. The number of items returned to a known user: the smaller of the
    count and the number of candidates when the count is not negative; for a
    negative count the slice drops that many candidates from the end of the
    ranking, so the number of candidates plus the count, or none. *)
Theorem known_user_list_length (m : Model) (uid ex : PyVal) (count : Z)
    (seen raws : list RawId) :
  known_user (trainset m) uid seen ->
  item_ids (trainset m) = Ok raws ->
  exists recs,
    fst (generate_recommendations uid (PInt count) ex m) = Ok (recs, true)
    /\ Z.of_nat (List.length recs)
       = if count <? 0
         then Z.max 0
                (Z.of_nat (List.length (candidate_pool raws seen (py_truthy ex))) + count)
         else Z.min count
                (Z.of_nat (List.length (candidate_pool raws seen (py_truthy ex)))).
Proof.
  intros Hknown Hraws. eexists.
  split; [exact (known_result m uid ex count seen raws Hknown Hraws)|].
  rewrite length_map, slice_to_length_any.
  now rewrite (Permutation_length (ranked_ids_perm m uid _)).
Qed.

Lemma known_user_list_length_witness :
  known_user (trainset model_abc) (PInt 1) [RStr "A"]
  /\ item_ids (trainset model_abc) = Ok raws_abc
  /\ exists recs,
       fst (generate_recommendations (PInt 1) (PInt (-1)) (PBool false) model_abc)
       = Ok (recs, true)
       /\ Z.of_nat (List.length recs)
          = if -1 <? 0
            then Z.max 0
                   (Z.of_nat (List.length
                                (candidate_pool raws_abc [RStr "A"]
                                   (py_truthy (PBool false)))) + -1)
            else Z.min (-1)
                   (Z.of_nat (List.length
                                (candidate_pool raws_abc [RStr "A"]
                                   (py_truthy (PBool false))))).
Proof.
  assert (Hk : known_user (trainset model_abc) (PInt 1) [RStr "A"])
    by (exists 0%nat; split; reflexivity).
  split; [exact Hk|]. split; [reflexivity|].
  apply (known_user_list_length model_abc (PInt 1) (PBool false) (-1) [RStr "A"] raws_abc);
    [exact Hk | reflexivity].
Defined.

(** X16. The ranking of a known user is fixed by its two properties: any
    arrangement of the candidates that is descending by estimate and keeps
    candidates of equal estimate in the order of the enumeration gives, cut
    at the count, the list that is returned. *)
Theorem personal_ranking_determined (m : Model) (uid ex : PyVal) (count : Z)
    (seen raws out : list RawId) :
  known_user (trainset m) uid seen ->
  item_ids (trainset m) = Ok raws ->
  StronglySorted (fun a b => (est m uid b <= est m uid a)%Q) out ->
  (forall q : Q,
     filter (fun r => Qeq_bool (est m uid r) q) out
     = filter (fun r => Qeq_bool (est m uid r) q)
         (candidate_pool raws seen (py_truthy ex))) ->
  fst (generate_recommendations uid (PInt count) ex m)
  = Ok (map py_str (slice_to count out), true).
Proof.
  intros Hknown Hraws Hsorted Hstable.
  rewrite (known_result m uid ex count seen raws Hknown Hraws).
  replace out with (ranked_ids m uid (candidate_pool raws seen (py_truthy ex)));
    [reflexivity|].
  symmetry. apply (sort_desc_unique Qltb (est m uid) Qltb_asym Qltb_negtrans).
  - eapply StronglySorted_weaken; [|exact Hsorted].
    intros a b H. now apply Qltb_false_iff.
  - intros q. rewrite !(filter_ext _ _ (same_key_Q (est m uid) q)). apply Hstable.
Qed.

Lemma personal_ranking_determined_witness :
  known_user (trainset model_abc) (PInt 1) [RStr "A"]
  /\ item_ids (trainset model_abc) = Ok raws_abc
  /\ fst (generate_recommendations (PInt 1) (PInt 2) (PBool true) model_abc)
     = Ok (map py_str (slice_to 2 [RStr "B"; RStr "C"]), true).
Proof.
  assert (Hk : known_user (trainset model_abc) (PInt 1) [RStr "A"])
    by (exists 0%nat; split; reflexivity).
  split; [exact Hk|]. split; [reflexivity|].
  apply (personal_ranking_determined model_abc (PInt 1) (PBool true) 2 [RStr "A"]
           raws_abc [RStr "B"; RStr "C"]); [exact Hk | reflexivity | |].
  - repeat constructor; cbn; unfold Qle; simpl; lia.
  - intros q. reflexivity.
Defined.

(** ** The client form against the function *)

Lemma client_request_extract (function_key : option string) (u n : Z) :
  digit_count (str_of_Z u) <= max_str_digits ->
  digit_count (str_of_Z n) <= max_str_digits ->
  extract_request_params (client_request function_key u n)
  = Ok (PInt u, PInt (Z.max 1 (Z.min n 100)), PBool true).
Proof.
  intros Hu Hn.
  rewrite (extract_from_query (client_request function_key u n) n).
  - unfold params_get. cbn. now rewrite coerced_str_of_Z.
  - apply (query_source _ (str_of_Z u)); [reflexivity | apply str_of_Z_nonempty].
  - apply (query_num_decimal _ (str_of_Z n) n); [reflexivity|].
    apply int_of_string_str_of_Z, Hn.
Qed.

Lemma user_ids_nonzero (u : Z) : In u user_ids -> u <> 0.
Proof. unfold user_ids. cbn. intuition lia. Qed.

Lemma user_ids_digits (u : Z) :
  In u user_ids -> digit_count (str_of_Z u) <= max_str_digits.
Proof.
  unfold user_ids. cbn [In]. intros H.
  repeat (destruct H as [<- | H]; [vm_compute; discriminate|]). contradiction.
Qed.

Lemma form_number_digits (n : Z) :
  1 <= n <= 20 -> digit_count (str_of_Z n) <= max_str_digits.
Proof.
  intros Hn. destruct n as [|p|p]; try lia.
  repeat (destruct p as [p|p|]; try lia); vm_compute; discriminate.
Qed.

Lemma form_request_extract (function_key : option string) (u n : Z) :
  In u user_ids ->
  1 <= n <= 20 ->
  extract_request_params (client_request function_key u n)
  = Ok (PInt u, PInt n, PBool true).
Proof.
  intros Hu Hn.
  rewrite (client_request_extract function_key u n (user_ids_digits u Hu)
             (form_number_digits n Hn)).
  now replace (Z.max 1 (Z.min n 100)) with n by lia.
Qed.

(** X17. What the function extracts from a request of the form, for a user
    of the list of the form and a number from 1 to 20: the user chosen, as
    an integer, the number chosen, unchanged by the clamp, and [True]; the
    key in the query string plays no part. *)
Theorem client_request_extracted (function_key : option string) (u n : Z) :
  In u user_ids ->
  1 <= n <= 20 ->
  extract_request_params (client_request function_key u n)
  = Ok (PInt u, PInt n, PBool true).
Proof. apply form_request_extract. Qed.

Lemma client_request_extracted_witness :
  In 123 user_ids
  /\ extract_request_params (client_request None 123 5)
     = Ok (PInt 123, PInt 5, PBool true).
Proof.
  assert (Hin : In 123 user_ids) by (unfold user_ids; cbn; intuition lia).
  split; [exact Hin|].
  apply (client_request_extracted None 123 5 Hin). lia.
Defined.

(** X18. A click with a user of the list and a number from 1 to 20, on a
    process with a model: for a known user the page shows the heading and
    the first candidates by estimate, rated items left out; for an unknown
    user it first shows the notice of a new user, then the heading and the
    most rated items.  The error branch is not taken. *)
Theorem click_shows_recommendations (function_key : option string) (u n : Z)
    (m : Model) (raws : list RawId) :
  In u user_ids ->
  1 <= n <= 20 ->
  item_ids (trainset m) = Ok raws ->
  (forall seen, known_user (trainset m) (PInt u) seen ->
     fst (click function_key u n (mkProcess (Some m)))
     = Some [Text "**Numéros des articles recommandés pour l'utilisateur choisi :**";
             Value (PList (map PStr
                             (map py_str
                                (slice_to n
                                   (ranked_ids m (PInt u)
                                      (candidate_pool raws seen true))))))])
  /\ (unknown_user (trainset m) (PInt u) -> NoDup raws ->
      fst (click function_key u n (mkProcess (Some m)))
      = Some [Text "**Nouvel utilisateur ➡️ Suggestion des articles les plus populaires**";
              Text "**Numéros des articles recommandés pour l'utilisateur choisi :**";
              Value (PList (map PStr
                              (render (slice_to n (popularity_ranking (trainset m) raws)))))]).
Proof.
  intros Hu Hn Hraws.
  assert (Hext : extract_request_params (client_request function_key u n)
                 = Ok (PInt u, PInt n, PBool true)).
  { apply form_request_extract; assumption. }
  assert (Ht : py_truthy (PInt u) = true).
  { cbn [py_truthy]. apply negb_true_iff, Z.eqb_neq, user_ids_nonzero, Hu. }
  unfold click.
  rewrite (handler_on_extracted _ m _ _ _ Hext Ht). split.
  - intros seen Hknown.
    assert (H := known_result m (PInt u) (PBool true) n seen raws Hknown Hraws).
    destruct (generate_recommendations _ _ _ m) as [[[recs known]|e] m'];
      cbn [fst py_truthy] in H; [|discriminate].
    injection H as -> ->. reflexivity.
  - intros Hunknown Hnd.
    assert (H := unknown_result m (PInt u) (PBool true) n raws Hunknown Hraws Hnd).
    destruct (generate_recommendations _ _ _ m) as [[[recs known]|e] m'];
      cbn [fst] in H; [|discriminate].
    injection H as -> ->. reflexivity.
Qed.

Lemma click_shows_recommendations_witness :
  In 789 user_ids
  /\ item_ids (trainset model_abc) = Ok raws_abc
  /\ unknown_user (trainset model_abc) (PInt 789)
  /\ NoDup raws_abc
  /\ fst (click None 789 2 (mkProcess (Some model_abc)))
     = Some [Text "**Nouvel utilisateur ➡️ Suggestion des articles les plus populaires**";
             Text "**Numéros des articles recommandés pour l'utilisateur choisi :**";
             Value (PList (map PStr
                             (render (slice_to 2
                                        (popularity_ranking (trainset model_abc)
                                           raws_abc)))))].
Proof.
  assert (Hin : In 789 user_ids) by (unfold user_ids; cbn; intuition lia).
  assert (Hu : unknown_user (trainset model_abc) (PInt 789))
    by (eexists; split; reflexivity).
  assert (Hnd : NoDup raws_abc) by (unfold raws_abc; solve_NoDup).
  split; [exact Hin|]. split; [reflexivity|]. split; [exact Hu|]. split; [exact Hnd|].
  destruct (click_shows_recommendations None 789 2 model_abc raws_abc)
    as [_ Hunknown]; [exact Hin | lia | reflexivity |].
  exact (Hunknown Hu Hnd).
Defined.

(** X19. The page never stops on a missing key: whatever the request and
    the process, the answer of the function is shown, as recommendations
    when its status is 200 and as an error otherwise. *)
Theorem every_answer_is_shown (req : HttpRequest) (p : Process) :
  exists shown,
    show_response (fst (recommendation_function req p)) = Some shown
    /\ (status_code (fst (recommendation_function req p)) = 200
        \/ shown = [Error (status_code (fst (recommendation_function req p)))
                      (body (fst (recommendation_function req p)))]).
Proof.
  destruct (response_cases req p)
    as [(error & message & code & -> & Hcode) | (uid & known & recs & -> & _)].
  - eexists. split; [|right; reflexivity].
    unfold show_response. cbn [status_code create_error_response].
    now destruct Hcode as [-> | ->].
  - eexists. split; [|left; reflexivity]. unfold show_response. reflexivity.
Qed.
